(** * Interactive HGF dashboard: the plotting function and the application script

    A shallow embedding of [src/plot.py] (the function [plot_trajectories]) and
    of [src/app/main.py] (widgets, the callbacks [fit_hgf] and [on_change], the
    layout mounted on the current document), with the properties of the
    dashboard stated over it.

    The inference library (pyhgf) and the plotting toolkit (bokeh) are not part
    of the repository.  The first is an interface the development is
    parametric in; of the second only what the two files rely on is modelled:
    objects are records, a range object carries an identity, and a call of a
    glyph method records its arguments as they are written in the source.
    Two of the toolkit's checks decide whether the code returns and are
    modelled with it: a figure refuses a negative [height], and a glyph
    method refuses a keyword that is no property of the glyph, as
    [edgecolors] is none of a circle. *)

From Stdlib Require Import ZArith QArith.
From stdpp Require Import base list strings gmap pretty.

Set Warnings "-register-all".

Local Open Scope string_scope.
Local Open Scope list_scope.

(** ** Exceptions and results *)

Inductive exn :=
| KeyError (key : string)
| AttributeError (name : string)
| IndexError
| UnboundLocalError (name : string)
| ValueError (name : string)
| LibraryError (msg : string).

Inductive result (A : Type) :=
| OK (a : A)
| Raise (e : exn).
Arguments OK {A} a.
Arguments Raise {A} e.

(** ** Values handed to the plotting toolkit

    Columns of the trajectory table hold floating-point numbers; the embedding
    keeps the expressions the source builds from them symbolic.  A number
    written in the source, the value of a slider and the global surprise are
    rationals: no arithmetic is done on them. *)

Inductive series :=
| Col (name : string)
| Sub (a b : series)
| Add (a b : series)
| Sqrt (a : series)
| RDiv (c : Z) (a : series).

Inductive scalar :=
| Num (q : Q)
| Iloc (s : series) (i : Z)
| Min (s : series)
| Max (s : series)
| Round (x : scalar) (ndigits : Z).

(** An f-string made of a literal prefix and one formatted number. *)
Inductive text :=
| Str (s : string)
| Fmt (prefix : string) (x : scalar).

Inductive pyvalue :=
| VStr (s : string)
| VInt (z : Z)
| VNum (q : Q)
| VSeries (s : series)
| VScalar (c : scalar)
| VNone.

(** [Range1d(start, end)] and the data range a figure gets when none is given.
    [rid] is the identity of the object: two figures hold the same range object
    exactly when the identities agree. *)
Inductive range_kind :=
| Range1d (lo hi : scalar)
| DataRange1d.

Record Range := { rid : nat; rkind : range_kind }.

(** A glyph method call: method name, positional arguments, keyword arguments. *)
Inductive glyph :=
| Glyph (method : string) (args : list pyvalue) (kwargs : list (string * pyvalue)).

Record LinearAxis := { y_range_name : string; axis_label : string }.

Record RangeTool := {
  rt_x_range : Range;
  overlay_fill_color : option string;
  overlay_fill_alpha : option Q
}.

Record figure := {
  title : text;
  fig_kwargs : list (string * pyvalue);
  x_range : Range;
  y_range : Range;
  extra_y_ranges : gmap string Range;
  renderers : list glyph;
  layouts : list (LinearAxis * string);
  tools : list RangeTool;
  ygrid_grid_line_color : option pyvalue;
  toolbar_active_multi : option RangeTool
}.

(** The widget objects the application creates at module level; a layout
    refers to them, it does not copy them. *)
Inductive widget := dropdown_w | slider1_w | slider2_w | slider3_w | slider4_w.

#[global] Instance widget_eq_dec : EqDecision widget.
Proof. solve_decision. Defined.

Inductive node :=
| NDiv (text : string) (width height : Z)
| NWidget (w : widget)
| NFigure (f : figure)
| NRow (children : list node)
| NColumn (children : list node) (kwargs : list (string * pyvalue)).

(** ** State and exceptions

    A computation runs on a state and ends with a result or an exception; an
    exception keeps the state reached when it was raised.  The plotting code
    runs in [M], whose state is the next fresh object identity. *)

Definition ST (S A : Type) : Type := S -> result A * S.

Definition ret {S A} (a : A) : ST S A := fun s => (OK a, s).
Definition raise {S A} (e : exn) : ST S A := fun s => (Raise e, s).
Definition bind {S A B} (m : ST S A) (k : A -> ST S B) : ST S B :=
  fun s => match m s with
           | (OK a, s1) => k a s1
           | (Raise e, s1) => (Raise e, s1)
           end.
Definition lift {S A} (r : result A) : ST S A := fun s => (r, s).

Abbreviation M := (ST nat).

Notation "x <- m ;; k" := (bind m (fun x => k))
  (at level 100, m at next level, right associativity).

Definition alloc_range (k : range_kind) : M Range :=
  fun n => (OK {| rid := n; rkind := k |}, S n).

(** Reading a local variable of the enclosing function. *)
Definition read_local {A} (name : string) (v : option A) : M A :=
  match v with
  | Some a => ret a
  | None => raise (UnboundLocalError name)
  end.

(** ** The toolkit's figure *)

Inductive range_arg :=
| FromTuple (lo hi : scalar)
| FromRange (r : Range).

Definition range_of_arg (a : option range_arg) : M Range :=
  match a with
  | Some (FromTuple lo hi) => alloc_range (Range1d lo hi)
  | Some (FromRange r) => ret r
  | None => alloc_range DataRange1d
  end.

(** The toolkit validates the properties a figure is given: [height] is a
    non-negative integer, and a value that is none raises [ValueError]. *)
Definition height_ok (kw : list (string * pyvalue)) : bool :=
  match List.find (fun p => String.eqb (fst p) "height") kw with
  | Some (_, VInt h) => (0 <=? h)%Z
  | _ => true
  end.

Definition check_height (kw : list (string * pyvalue)) : M unit :=
  if height_ok kw then ret tt else raise (ValueError "height").

Definition new_figure (t : text) (kw : list (string * pyvalue))
    (xr yr : option range_arg) : M figure :=
  _ <- check_height kw ;;
  x <- range_of_arg xr ;;
  y <- range_of_arg yr ;;
  ret {| title := t; fig_kwargs := kw; x_range := x; y_range := y;
         extra_y_ranges := ∅; renderers := []; layouts := []; tools := [];
         ygrid_grid_line_color := None; toolbar_active_multi := None |}.

Definition add_glyph (g : glyph) (f : figure) : figure :=
  {| title := title f; fig_kwargs := fig_kwargs f; x_range := x_range f;
     y_range := y_range f; extra_y_ranges := extra_y_ranges f;
     renderers := renderers f ++ [g]; layouts := layouts f; tools := tools f;
     ygrid_grid_line_color := ygrid_grid_line_color f;
     toolbar_active_multi := toolbar_active_multi f |}.

(** [fig.circle(...)]: the toolkit looks every keyword up among
    the properties of the glyph and of its renderer and raises
    [AttributeError] on the first that is none of them.  [circle_keywords]
    are the properties among the keywords the source passes. *)
Definition circle_keywords : list string :=
  ["x"; "y"; "size"; "legend_label"; "fill_color"; "line_color"; "alpha"].

Definition circle (args : list pyvalue) (kwargs : list (string * pyvalue))
    (f : figure) : M figure :=
  match List.find (fun p => negb (bool_decide (fst p ∈ circle_keywords)))
          kwargs with
  | Some (k, _) => raise (AttributeError k)
  | None => ret (add_glyph (Glyph "circle" args kwargs) f)
  end.

Definition set_y_range (r : Range) (f : figure) : figure :=
  {| title := title f; fig_kwargs := fig_kwargs f; x_range := x_range f;
     y_range := r; extra_y_ranges := extra_y_ranges f;
     renderers := renderers f; layouts := layouts f; tools := tools f;
     ygrid_grid_line_color := ygrid_grid_line_color f;
     toolbar_active_multi := toolbar_active_multi f |}.

Definition set_extra_y_range (k : string) (r : Range) (f : figure) : figure :=
  {| title := title f; fig_kwargs := fig_kwargs f; x_range := x_range f;
     y_range := y_range f; extra_y_ranges := <[k := r]> (extra_y_ranges f);
     renderers := renderers f; layouts := layouts f; tools := tools f;
     ygrid_grid_line_color := ygrid_grid_line_color f;
     toolbar_active_multi := toolbar_active_multi f |}.

Definition add_layout (ax : LinearAxis) (place : string) (f : figure) : figure :=
  {| title := title f; fig_kwargs := fig_kwargs f; x_range := x_range f;
     y_range := y_range f; extra_y_ranges := extra_y_ranges f;
     renderers := renderers f; layouts := layouts f ++ [(ax, place)];
     tools := tools f;
     ygrid_grid_line_color := ygrid_grid_line_color f;
     toolbar_active_multi := toolbar_active_multi f |}.

Definition add_tools (t : RangeTool) (f : figure) : figure :=
  {| title := title f; fig_kwargs := fig_kwargs f; x_range := x_range f;
     y_range := y_range f; extra_y_ranges := extra_y_ranges f;
     renderers := renderers f; layouts := layouts f; tools := tools f ++ [t];
     ygrid_grid_line_color := ygrid_grid_line_color f;
     toolbar_active_multi := toolbar_active_multi f |}.

Definition set_ygrid_grid_line_color (v : pyvalue) (f : figure) : figure :=
  {| title := title f; fig_kwargs := fig_kwargs f; x_range := x_range f;
     y_range := y_range f; extra_y_ranges := extra_y_ranges f;
     renderers := renderers f; layouts := layouts f; tools := tools f;
     ygrid_grid_line_color := Some v;
     toolbar_active_multi := toolbar_active_multi f |}.

Definition set_toolbar_active_multi (t : RangeTool) (f : figure) : figure :=
  {| title := title f; fig_kwargs := fig_kwargs f; x_range := x_range f;
     y_range := y_range f; extra_y_ranges := extra_y_ranges f;
     renderers := renderers f; layouts := layouts f; tools := tools f;
     ygrid_grid_line_color := ygrid_grid_line_color f;
     toolbar_active_multi := Some t |}.

(** ** The fitted model and its trajectory table *)

Record DataFrame := { columns : list string; nrows : nat }.

Record HGF := {
  model_type : string;
  to_pandas : result DataFrame;
  surprise : result Q
}.

(** [df[name]] *)
Definition df_getitem (df : DataFrame) (name : string) : M series :=
  if bool_decide (name ∈ columns df) then ret (Col name)
  else raise (KeyError name).

(** [df.name] *)
Definition df_getattr (df : DataFrame) (name : string) : M series :=
  if bool_decide (name ∈ columns df) then ret (Col name)
  else raise (AttributeError name).

(** [s.iloc[i]] for [i] one of [0] and [-1]. *)
Definition iloc (df : DataFrame) (s : series) (i : Z) : M scalar :=
  if decide (nrows df = 0%nat) then raise IndexError else ret (Iloc s i).

(** [pat in s] *)
Fixpoint contains (pat s : string) : bool :=
  if String.prefix pat s then true
  else match s with
       | EmptyString => false
       | String _ s' => contains pat s'
       end.

(** [trajectories_df.columns.str.contains("_muhat").sum()] *)
Definition count_nodes (df : DataFrame) : nat :=
  length (List.filter (contains "_muhat") (columns df)).

(** [f"node_{i}_<stat>"] *)
Definition node_col (i : nat) (stat : string) : string :=
  "node_" +:+ pretty i +:+ "_" +:+ stat.

(** ** [plot_trajectories] *)

(** [bokeh.palettes.Dark2_5], a constant of the toolkit. *)
Definition Dark2_5 : list string :=
  ["#1b9e77"; "#d95f02"; "#7570b3"; "#e7298a"; "#66a61e"].

(** [next(palette)] for [palette = itertools.cycle(Dark2_5)], the state of the
    iterator being the number of colours already drawn. *)
Definition next_color (drawn : nat) : string :=
  nth (drawn mod length Dark2_5) Dark2_5 "".

Section PlotTrajectories.

Variable hgf : HGF.
Variable trajectories_df : DataFrame.
Variables ci with_surprise : bool.
Variable figsize : Z.

(** The [x_range] argument of a node figure: the range object of the figure
    made by the previous iteration, or a pair of the first and last time
    stamps when [cols] is still empty. *)
Definition node_x_range (cols : list figure) (level_plot : option figure)
    : M range_arg :=
  if negb (length cols =? 0)%nat then
    lp <- read_local "level_plot" level_plot ;;
    ret (FromRange (x_range lp))
  else
    t0 <- df_getattr trajectories_df "time" ;;
    lo <- iloc trajectories_df t0 0 ;;
    t1 <- df_getattr trajectories_df "time" ;;
    hi <- iloc trajectories_df t1 (-1) ;;
    ret (FromTuple lo hi).

(** The input node: the observations as circles, on node 1 only.  The call
    for a binary model passes [edgecolors]: once its arguments are evaluated
    [circle] raises, nothing is drawn and the run ends there. *)
Definition plot_input (i : nat) (level_plot : figure) : M figure :=
  if (i =? 1)%nat then
    if String.eqb (model_type hgf) "continuous" then
      t <- df_getattr trajectories_df "time" ;;
      o <- df_getattr trajectories_df "observation" ;;
      circle [VSeries t; VSeries o]
        [("size", VInt 2); ("legend_label", VStr "Input");
         ("fill_color", VStr "#2a2a2a"); ("line_color", VStr "#2a2a2a");
         ("alpha", VNum 0.5)]
        level_plot
    else if String.eqb (model_type hgf) "binary" then
      t <- df_getattr trajectories_df "time" ;;
      o <- df_getattr trajectories_df "observation" ;;
      circle []
        [("x", VSeries t); ("y", VSeries o);
         ("legend_label", VStr "Input");
         ("fill_color", VStr "#4c72b0"); ("line_color", VStr "grey");
         ("alpha", VNum 0.4); ("edgecolors", VStr "k");
         ("size", VInt 10)]
        level_plot
    else ret level_plot
  else ret level_plot.

(** The mean of the node as a line. *)
Definition plot_mean (mu : series) (color : string) (level_plot : figure)
    : M figure :=
  t <- df_getattr trajectories_df "time" ;;
  ret (add_glyph
         (Glyph "line" [VSeries t; VSeries mu]
            [("color", VStr color); ("line_width", VNum 0.5)])
         level_plot).

(** The standard deviation around the mean; the first level of a binary
    model shows none. *)
Definition plot_sd (i : nat) (pi : series) (color : string)
    (level_plot : figure) : M figure :=
  if ci then
    if negb (String.eqb (model_type hgf) "binary" && (i =? 1)%nat) then
      let sd := Sqrt (RDiv 1 pi) in
      t <- df_getattr trajectories_df "time" ;;
      m1 <- df_getitem trajectories_df (node_col i "muhat") ;;
      m2 <- df_getitem trajectories_df (node_col i "muhat") ;;
      let level_plot :=
        add_glyph
          (Glyph "varea" []
             [("x", VSeries t); ("y1", VSeries (Sub m1 sd));
              ("y2", VSeries (Add m2 sd)); ("alpha", VNum 0.4);
              ("color", VStr color)])
          level_plot in
      m3 <- df_getitem trajectories_df (node_col i "muhat") ;;
      m4 <- df_getitem trajectories_df (node_col i "muhat") ;;
      r <- alloc_range (Range1d (Min (Sub m3 sd)) (Max (Add m4 sd))) ;;
      ret (set_y_range r level_plot)
    else ret level_plot
  else ret level_plot.

(** The surprise of the node, on a second vertical range with its own axis. *)
Definition plot_surprise (i : nat) (level_plot : figure) : M figure :=
  if with_surprise then
    s1 <- df_getitem trajectories_df (node_col i "surprise") ;;
    s2 <- df_getitem trajectories_df (node_col i "surprise") ;;
    r <- alloc_range (Range1d (Min s1) (Max s2)) ;;
    let level_plot := set_extra_y_range "surprise" r level_plot in
    t <- df_getattr trajectories_df "time" ;;
    s3 <- df_getitem trajectories_df (node_col i "surprise") ;;
    let level_plot :=
      add_glyph
        (Glyph "line" []
           [("x", VSeries t); ("y", VSeries s3); ("color", VStr "#2a2a2a");
            ("line_width", VNum 0.5); ("y_range_name", VStr "surprise")])
        level_plot in
    t' <- df_getattr trajectories_df "time" ;;
    s4 <- df_getitem trajectories_df (node_col i "surprise") ;;
    s5 <- df_getitem trajectories_df (node_col i "surprise") ;;
    let level_plot :=
      add_glyph
        (Glyph "varea" []
           [("x", VSeries t'); ("y1", VSeries s4); ("y2", VScalar (Min s5));
            ("color", VStr "#7f7f7f"); ("alpha", VNum 0.2);
            ("y_range_name", VStr "surprise")])
        level_plot in
    let ax2 := {| y_range_name := "surprise"; axis_label := "Surprise" |} in
    ret (add_layout ax2 "right" level_plot)
  else ret level_plot.

(** One iteration of the loop over the node indexes: the figure it appends
    to [cols] and binds to [level_plot]. *)
Definition node_figure (i : nat) (color : string) (cols : list figure)
    (level_plot : option figure) : M figure :=
  mu <- df_getitem trajectories_df (node_col i "muhat") ;;
  pi <- df_getitem trajectories_df (node_col i "pihat") ;;
  xr <- node_x_range cols level_plot ;;
  level_plot <- new_figure (Str ("Node " +:+ pretty i))
                  [("sizing_mode", VStr "stretch_width");
                   ("height", VInt figsize);
                   ("x_axis_label", VStr "Time");
                   ("y_axis_label", VStr "Input");
                   ("output_backend", VStr "webgl")]
                  (Some xr) None ;;
  level_plot <- plot_input i level_plot ;;
  level_plot <- plot_mean mu color level_plot ;;
  level_plot <- plot_sd i pi color level_plot ;;
  plot_surprise i level_plot.

(** [for i in range(n_nodes, 0, -1)]: the state carried along is the number
    of colours drawn, [cols] and the binding of [level_plot]. *)
Fixpoint node_loop (i : nat) (drawn : nat) (cols : list figure)
    (level_plot : option figure) : M (list figure * option figure) :=
  match i with
  | O => ret (cols, level_plot)
  | S k =>
      let color := next_color drawn in
      fig <- node_figure (S k) color cols level_plot ;;
      node_loop k (S drawn) (cols ++ [fig]) (Some fig)
  end.

(** The figure of the global surprise. *)
Definition global_surprise (level_plot : option figure) : M figure :=
  s <- lift (surprise hgf) ;;
  lp <- read_local "level_plot" level_plot ;;
  surprise_plot <- new_figure (Fmt "Global surprise: " (Round (Num s) 2))
                     [("sizing_mode", VStr "stretch_width");
                      ("height", VInt figsize);
                      ("x_axis_label", VStr "Time");
                      ("y_axis_label", VStr "Surprise");
                      ("output_backend", VStr "webgl")]
                     (Some (FromRange (x_range lp))) None ;;
  t <- df_getattr trajectories_df "time" ;;
  s1 <- df_getattr trajectories_df "surprise" ;;
  s2 <- df_getattr trajectories_df "surprise" ;;
  let surprise_plot :=
    add_glyph
      (Glyph "varea" []
         [("x", VSeries t); ("y1", VSeries s1); ("y2", VScalar (Min s2));
          ("color", VStr "#7f7f7f"); ("alpha", VNum 0.2)])
      surprise_plot in
  t' <- df_getattr trajectories_df "time" ;;
  s3 <- df_getattr trajectories_df "surprise" ;;
  ret (add_glyph
         (Glyph "line" [VSeries t'; VSeries s3]
            [("color", VStr "#2a2a2a"); ("line_width", VNum 0.5)])
         surprise_plot).

(** The strip under the charts with the tool that selects the time range.
    [int(figsize * 0.4)] truncates the floating-point product towards zero;
    for an integer [figsize] below 2^50 in absolute value that is the quotient
    of [figsize * 4] by 10 truncated towards zero (the double nearest 0.4
    exceeds it by the relative amount 2^-54, less than half a unit in the last
    place of the product). *)
Definition range_selector (level_plot : option figure)
    (surprise_plot : figure) : M figure :=
  lp <- read_local "level_plot" level_plot ;;
  select <- new_figure (Str "Select the time range")
              [("y_axis_type", VNone);
               ("height", VInt (Z.quot (figsize * 4) 10));
               ("sizing_mode", VStr "stretch_width");
               ("output_backend", VStr "webgl");
               ("tools", VStr "");
               ("toolbar_location", VNone);
               ("background_fill_color", VStr "#efefef")]
              None (Some (FromRange (y_range lp))) ;;
  let range_tool :=
    {| rt_x_range := x_range surprise_plot;
       overlay_fill_color := Some "navy";
       overlay_fill_alpha := Some 0.2%Q |} in
  t <- df_getattr trajectories_df "time" ;;
  o <- df_getattr trajectories_df "observation" ;;
  let select := add_glyph (Glyph "line" [VSeries t; VSeries o] []) select in
  let select := set_ygrid_grid_line_color VNone select in
  let select := add_tools range_tool select in
  ret (set_toolbar_active_multi range_tool select).

End PlotTrajectories.

Definition plot_trajectories (hgf : HGF) (ci surprise : bool) (figsize : Z)
    (slider : bool) : M node :=
  trajectories_df <- lift (to_pandas hgf) ;;
  let n_nodes := count_nodes trajectories_df in
  loop <- node_loop hgf trajectories_df ci surprise figsize n_nodes 0 [] None ;;
  let cols := fst loop in
  let level_plot := snd loop in
  surprise_plot <- global_surprise hgf trajectories_df figsize level_plot ;;
  let cols := cols ++ [surprise_plot] in
  cols <- (if slider then
             select <- range_selector trajectories_df figsize level_plot
                         surprise_plot ;;
             ret (cols ++ [select])
           else ret cols) ;;
  ret (NColumn (NFigure <$> cols) [("sizing_mode", VStr "stretch_width")]).

(** The defaults of the signature: [ci=True, surprise=True, figsize=200,
    slider=True]. *)
Definition plot_trajectories_default (hgf : HGF) : M node :=
  plot_trajectories hgf true true 200 true.

(** ** The application script *)

Record Slider := {
  start : Q;
  end_ : Q;
  value : Q;
  step : Q;
  slider_title : string
}.

Record Dropdown := { label : string; menu : list (string * string) }.

(** The keyword arguments of the model constructor. *)
Record hgf_config := {
  n_levels : Z;
  cfg_model_type : string;
  initial_mu : gmap string Q;
  initial_pi : gmap string Q;
  omega : gmap string Q;
  rho : gmap string Q;
  kappas : gmap string Q;
  verbose : bool
}.

(** A call into the inference library.  The log of the calls made so far is
    kept next to the supply of object identities. *)
Inductive call :=
| Call_load_data (name : string)
| Call_HGF (cfg : hgf_config) (input_data : list Q).

Record world := { next_id : nat; calls : list call }.

(** The only function the script registers as a handler. *)
Inductive callback := on_change_cb.

(** The layout object handed to the document. *)
Inductive root := layout_root.

(** The module-level names of the script once it has run. *)
Record app_state := {
  timeseries : list Q;
  dropdown : Dropdown;
  slider1 : Slider;
  slider2 : Slider;
  slider3 : Slider;
  slider4 : Slider;
  handlers : list (widget * string * callback);
  layout : node;
  curdoc_roots : list root;
  curdoc_title : string;
  outside : world
}.

Definition set_outside (w : world) (st : app_state) : app_state :=
  {| timeseries := timeseries st; dropdown := dropdown st;
     slider1 := slider1 st; slider2 := slider2 st; slider3 := slider3 st;
     slider4 := slider4 st; handlers := handlers st; layout := layout st;
     curdoc_roots := curdoc_roots st; curdoc_title := curdoc_title st;
     outside := w |}.

Definition set_layout (l : node) (st : app_state) : app_state :=
  {| timeseries := timeseries st; dropdown := dropdown st;
     slider1 := slider1 st; slider2 := slider2 st; slider3 := slider3 st;
     slider4 := slider4 st; handlers := handlers st; layout := l;
     curdoc_roots := curdoc_roots st; curdoc_title := curdoc_title st;
     outside := outside st |}.

Definition set_dropdown (d : Dropdown) (st : app_state) : app_state :=
  {| timeseries := timeseries st; dropdown := d;
     slider1 := slider1 st; slider2 := slider2 st; slider3 := slider3 st;
     slider4 := slider4 st; handlers := handlers st; layout := layout st;
     curdoc_roots := curdoc_roots st; curdoc_title := curdoc_title st;
     outside := outside st |}.

Definition set_value (v : Q) (s : Slider) : Slider :=
  {| start := start s; end_ := end_ s; value := v; step := step s;
     slider_title := slider_title s |}.

Definition get_slider (w : widget) (st : app_state) : option Slider :=
  match w with
  | slider1_w => Some (slider1 st)
  | slider2_w => Some (slider2 st)
  | slider3_w => Some (slider3 st)
  | slider4_w => Some (slider4 st)
  | dropdown_w => None
  end.

Definition set_slider (w : widget) (s : Slider) (st : app_state) : app_state :=
  {| timeseries := timeseries st; dropdown := dropdown st;
     slider1 := match w with slider1_w => s | _ => slider1 st end;
     slider2 := match w with slider2_w => s | _ => slider2 st end;
     slider3 := match w with slider3_w => s | _ => slider3 st end;
     slider4 := match w with slider4_w => s | _ => slider4 st end;
     handlers := handlers st; layout := layout st;
     curdoc_roots := curdoc_roots st; curdoc_title := curdoc_title st;
     outside := outside st |}.

(** Running plotting code on the identity supply of the world, and a
    computation on the world inside the application state. *)
Definition with_ids {A} (m : M A) : ST world A :=
  fun w => let (r, n) := m (next_id w) in
           (r, {| next_id := n; calls := calls w |}).

Definition in_world {A} (m : ST world A) : ST app_state A :=
  fun st => let (r, w) := m (outside st) in (r, set_outside w st).

Definition log_call (c : call) : ST world unit :=
  fun w => (OK tt, {| next_id := next_id w; calls := calls w ++ [c] |}).

(** [layout.children[i] = x]; an index past the end raises. *)
Definition layout_setitem (i : nat) (x : node) : ST app_state unit :=
  fun st => match layout st with
            | NColumn children kw =>
                if decide (i < length children)%nat
                then (OK tt, set_layout (NColumn (<[i := x]> children) kw) st)
                else (Raise IndexError, st)
            | _ => (Raise (AttributeError "children"), st)
            end.

(** The text of the title: a line break, the heading after eight spaces, a
    line break and eight spaces, as the triple-quoted literal has them. *)
Definition newline : string := String (Ascii.ascii_of_nat 10) "".

Definition div_text : string :=
  newline +:+ "        <h1>The Hierarchical Gaussian Filter</h1>" +:+ newline
  +:+ "        ".

Section App.

(** The inference library: the sample-data accessor, and the construction of
    a model from its keyword arguments followed by [input_data]. *)
Variable load_data : string -> result (list Q).
Variable HGF_input_data : hgf_config -> list Q -> result HGF.

(** [fit_hgf] reads the module-level [timeseries], passed here as [ts]. *)
Definition fit_hgf (ts : list Q) (omega1 omega2 mu1 mu2 : Q) : ST world node :=
  let cfg :=
    {| n_levels := 2;
       cfg_model_type := "continuous";
       initial_mu := {[ "1" := mu1; "2" := mu2 ]};
       initial_pi := {[ "1" := 1e2%Q; "2" := 1e1%Q ]};
       omega := {[ "1" := omega1; "2" := omega2 ]};
       rho := {[ "1" := 0.0%Q; "2" := 0.0%Q ]};
       kappas := {[ "1" := 1.0%Q ]};
       verbose := false |} in
  _ <- log_call (Call_HGF cfg ts) ;;
  hgf <- lift (HGF_input_data cfg ts) ;;
  with_ids (plot_trajectories_default hgf).

Definition on_change (attrname : string) (old new : pyvalue)
    : ST app_state unit :=
  fun st =>
    (plot <- in_world (fit_hgf (timeseries st)
                         (value (slider1 st)) (value (slider2 st))
                         (value (slider3 st)) (value (slider4 st))) ;;
     layout_setitem 2 plot) st.

Definition run_callback (cb : callback) : string -> pyvalue -> pyvalue ->
    ST app_state unit :=
  match cb with
  | on_change_cb => on_change
  end.

(** *** The host: events and the handlers they reach

    A change of a property of a widget updates the widget and then calls, in
    the order of registration, the handlers registered on that widget for
    that property; the first exception ends the event. *)

Definition registered (w : widget) (attr : string)
    (hs : list (widget * string * callback)) : list callback :=
  snd <$> List.filter
            (fun h => bool_decide (fst (fst h) = w)
                      && String.eqb (snd (fst h)) attr) hs.

Fixpoint run_callbacks (cbs : list callback) (attr : string)
    (old new : pyvalue) : ST app_state unit :=
  match cbs with
  | [] => ret tt
  | cb :: rest =>
      _ <- run_callback cb attr old new ;;
      run_callbacks rest attr old new
  end.

Definition trigger (w : widget) (attr : string) (old new : pyvalue)
    : ST app_state unit :=
  fun st => run_callbacks (registered w attr (handlers st)) attr old new st.

Inductive event :=
| SliderChange (w : widget) (new : Q)
| DropdownChange (attr : string) (d : Dropdown).

Definition dispatch (ev : event) : ST app_state unit :=
  fun st =>
    match ev with
    | SliderChange w new =>
        match get_slider w st with
        | Some s =>
            trigger w "value" (VNum (value s)) (VNum new)
              (set_slider w (set_value new s) st)
        | None => (OK tt, st)
        end
    | DropdownChange attr d =>
        trigger dropdown_w attr VNone VNone (set_dropdown d st)
    end.

(** The server keeps running after a handler has raised. *)
Definition run_events (evs : list event) (st : app_state) : app_state :=
  fold_left (fun s ev => snd (dispatch ev s)) evs st.

(** *** The script, top to bottom *)

Definition app_title : node := NDiv div_text 900 60.

Definition widgets : node :=
  NColumn [NRow [NWidget slider1_w; NWidget slider2_w];
           NRow [NWidget slider3_w; NWidget slider4_w]] [].

Definition main : result app_state :=
  let w0 := {| next_id := 0; calls := [] |} in
  match (_ <- log_call (Call_load_data "continuous") ;;
         lift (load_data "continuous")) w0 with
  | (Raise e, _) => Raise e
  | (OK ts, w1) =>
      let dd := {| label := "Model type";
                   menu := [("Binary", "binary"); ("Continuous", "continuous")] |} in
      let s1 := {| start := (-20.0)%Q; end_ := 5.0%Q; value := (-4)%Q;
                   step := 0.1%Q; slider_title := "Omega 1" |} in
      let s2 := {| start := (-20.0)%Q; end_ := 5.0%Q; value := (-4)%Q;
                   step := 0.1%Q; slider_title := "Omega 2" |} in
      let s3 := {| start := (-20.0)%Q; end_ := 20.0%Q; value := 1.04%Q;
                   step := 0.1%Q; slider_title := "Mu 1" |} in
      let s4 := {| start := (-20.0)%Q; end_ := 20.0%Q; value := 0.0%Q;
                   step := 0.1%Q; slider_title := "Mu 2" |} in
      let hs := [(slider1_w, "value", on_change_cb);
                 (slider2_w, "value", on_change_cb);
                 (slider3_w, "value", on_change_cb);
                 (slider4_w, "value", on_change_cb)] in
      match fit_hgf ts (value s1) (value s2) (value s3) (value s4) w1 with
      | (Raise e, _) => Raise e
      | (OK plot, w2) =>
          OK {| timeseries := ts; dropdown := dd;
                slider1 := s1; slider2 := s2; slider3 := s3; slider4 := s4;
                handlers := hs;
                layout := NColumn [app_title; widgets; plot] [];
                curdoc_roots := [layout_root];
                curdoc_title := "The Hierarchical Gaussian Filter";
                outside := w2 |}
      end
  end.

(** The tree the document shows: each root, read at the time of asking. *)
Definition document_tree (st : app_state) : list node :=
  (fun r => match r with layout_root => layout st end) <$> curdoc_roots st.

End App.

(** * Vocabulary of the statements *)

(** ** What the figures show *)

(** The glyphs of node [i]: the mean, the band of one standard deviation
    around it, the surprise as a line and as an area, and the axis of the
    surprise. *)
Definition mean_line (i : nat) (color : string) : glyph :=
  Glyph "line" [VSeries (Col "time"); VSeries (Col (node_col i "muhat"))]
    [("color", VStr color); ("line_width", VNum 0.5)].

Definition uncertainty_band (i : nat) (color : string) : glyph :=
  let mu := Col (node_col i "muhat") in
  let sd := Sqrt (RDiv 1 (Col (node_col i "pihat"))) in
  Glyph "varea" []
    [("x", VSeries (Col "time")); ("y1", VSeries (Sub mu sd));
     ("y2", VSeries (Add mu sd)); ("alpha", VNum 0.4); ("color", VStr color)].

Definition surprise_line (i : nat) : glyph :=
  Glyph "line" []
    [("x", VSeries (Col "time")); ("y", VSeries (Col (node_col i "surprise")));
     ("color", VStr "#2a2a2a"); ("line_width", VNum 0.5);
     ("y_range_name", VStr "surprise")].

Definition surprise_area (i : nat) : glyph :=
  Glyph "varea" []
    [("x", VSeries (Col "time")); ("y1", VSeries (Col (node_col i "surprise")));
     ("y2", VScalar (Min (Col (node_col i "surprise"))));
     ("color", VStr "#7f7f7f"); ("alpha", VNum 0.2);
     ("y_range_name", VStr "surprise")].

Definition surprise_axis : LinearAxis :=
  {| y_range_name := "surprise"; axis_label := "Surprise" |}.

Definition surprise_range (i : nat) : range_kind :=
  Range1d (Min (Col (node_col i "surprise"))) (Max (Col (node_col i "surprise"))).

(** The observations as circles, which the figure of node 1 of a continuous
    model gets; the call for a binary model draws none, it raises. *)
Definition observation_circles (mt : string) : list glyph :=
  if String.eqb mt "continuous" then
    [Glyph "circle" [VSeries (Col "time"); VSeries (Col "observation")]
       [("size", VInt 2); ("legend_label", VStr "Input");
        ("fill_color", VStr "#2a2a2a"); ("line_color", VStr "#2a2a2a");
        ("alpha", VNum 0.5)]]
  else [].

(** The range shared along the horizontal axis when it is made at identity [n]. *)
Definition time_range (n : nat) : Range :=
  {| rid := n; rkind := Range1d (Iloc (Col "time") 0) (Iloc (Col "time") (-1)) |}.

Section NodeFigure.

Variable hgf : HGF.
Variable df : DataFrame.
Variables ci with_surprise : bool.
Variable figsize : Z.

Definition shows_band (i : nat) : bool :=
  ci && negb (String.eqb (model_type hgf) "binary" && (i =? 1)%nat).

Definition node_glyphs (i : nat) (color : string) : list glyph :=
  (if (i =? 1)%nat then observation_circles (model_type hgf) else [])
  ++ [mean_line i color]
  ++ (if shows_band i then [uncertainty_band i color] else [])
  ++ (if with_surprise then [surprise_line i; surprise_area i] else []).

(** The state in which an iteration starts: either nothing was appended yet
    and the shared range will be made now, or [level_plot] is bound to a
    figure that holds it. *)
Definition entry (cols : list figure) (level_plot : option figure)
    (n : nat) (xr : Range) : Prop :=
  if (length cols =? 0)%nat then xr = time_range n
  else exists lp, level_plot = Some lp /\ x_range lp = xr.

Definition node_spec (i : nat) (color : string) (xr : Range) (f : figure)
    : Prop :=
  title f = Str ("Node " +:+ pretty i) /\
  x_range f = xr /\
  tools f = [] /\
  renderers f = node_glyphs i color /\
  layouts f = (if with_surprise then [(surprise_axis, "right")] else []) /\
  rkind <$> (extra_y_ranges f !! "surprise") =
    (if with_surprise then Some (surprise_range i) else None).

End NodeFigure.

(** Each step of an iteration adds its glyphs and leaves the rest of the
    figure as it found it. *)
Definition same_frame (f f' : figure) : Prop :=
  title f' = title f /\ x_range f' = x_range f /\ tools f' = tools f.

Definition global_surprise_glyphs : list glyph :=
  [Glyph "varea" []
     [("x", VSeries (Col "time")); ("y1", VSeries (Col "surprise"));
      ("y2", VScalar (Min (Col "surprise")));
      ("color", VStr "#7f7f7f"); ("alpha", VNum 0.2)];
   Glyph "line" [VSeries (Col "time"); VSeries (Col "surprise")]
     [("color", VStr "#2a2a2a"); ("line_width", VNum 0.5)]].

Definition surprise_spec (hgf : HGF) (xr : Range) (f : figure) : Prop :=
  (exists s, surprise hgf = OK s /\
             title f = Fmt "Global surprise: " (Round (Num s) 2)) /\
  x_range f = xr /\
  tools f = [] /\
  renderers f = global_surprise_glyphs.

Definition selector_tool (xr : Range) : RangeTool :=
  {| rt_x_range := xr; overlay_fill_color := Some "navy";
     overlay_fill_alpha := Some 0.2%Q |}.

Definition selector_spec (xr yr : Range) (n : nat) (f : figure) : Prop :=
  title f = Str "Select the time range" /\
  x_range f = {| rid := n; rkind := DataRange1d |} /\
  y_range f = yr /\
  tools f = [selector_tool xr] /\
  toolbar_active_multi f = Some (selector_tool xr) /\
  renderers f = [Glyph "line" [VSeries (Col "time"); VSeries (Col "observation")] []].

Definition column_kwargs : list (string * pyvalue) :=
  [("sizing_mode", VStr "stretch_width")].

(** ** Models on which the plot is produced

    A model is well formed when its table can be read and its global surprise
    computed, the table has a row, the columns [time], [observation] and
    [surprise], at least one node, and the three columns of every node from 1
    to the number of nodes. *)

Definition has_columns (df : DataFrame) (names : list string) : bool :=
  forallb (fun c => bool_decide (c ∈ columns df)) names.

Definition node_columns (i : nat) : list string :=
  [node_col i "muhat"; node_col i "pihat"; node_col i "surprise"].

Definition well_formed (hgf : HGF) : bool :=
  match to_pandas hgf, surprise hgf with
  | OK df, OK _ =>
      has_columns df ["time"; "observation"; "surprise"]
      && negb (nrows df =? 0)%nat
      && negb (count_nodes df =? 0)%nat
      && forallb (fun i => has_columns df (node_columns i))
           (seq 1 (count_nodes df))
  | _, _ => false
  end.

Definition n_nodes (hgf : HGF) : nat :=
  match to_pandas hgf with
  | OK df => count_nodes df
  | Raise _ => 0
  end.

(** ** Which columns a figure draws *)

Fixpoint series_uses (c : string) (s : series) : bool :=
  match s with
  | Col name => String.eqb name c
  | Sub a b | Add a b => series_uses c a || series_uses c b
  | Sqrt a | RDiv _ a => series_uses c a
  end.

Fixpoint scalar_uses (c : string) (x : scalar) : bool :=
  match x with
  | Num _ => false
  | Iloc s _ | Min s | Max s => series_uses c s
  | Round y _ => scalar_uses c y
  end.

Definition value_uses (c : string) (v : pyvalue) : bool :=
  match v with
  | VSeries s => series_uses c s
  | VScalar x => scalar_uses c x
  | _ => false
  end.

Definition glyph_uses (c : string) (g : glyph) : bool :=
  match g with
  | Glyph _ args kw =>
      existsb (value_uses c) args || existsb (fun p => value_uses c (snd p)) kw
  end.

(** The figure draws column [c] of the table. *)
Definition draws (c : string) (f : figure) : bool :=
  existsb (glyph_uses c) (renderers f).

(** ** Exceptions, calls and states *)



(** The keyword arguments of a model construction that do not depend on the
    sliders, and the two that do. *)
Definition fixed_config (cfg : hgf_config) (omega1 omega2 mu1 mu2 : Q) : Prop :=
  n_levels cfg = 2%Z /\
  cfg_model_type cfg = "continuous" /\
  initial_pi cfg = {[ "1" := 1e2%Q; "2" := 1e1%Q ]} /\
  rho cfg = {[ "1" := 0.0%Q; "2" := 0.0%Q ]} /\
  kappas cfg = {[ "1" := 1.0%Q ]} /\
  verbose cfg = false /\
  omega cfg = {[ "1" := omega1; "2" := omega2 ]} /\
  initial_mu cfg = {[ "1" := mu1; "2" := mu2 ]}.

(** The handlers the script registers. *)
Definition value_handlers : list (widget * string * callback) :=
  [(slider1_w, "value", on_change_cb); (slider2_w, "value", on_change_cb);
   (slider3_w, "value", on_change_cb); (slider4_w, "value", on_change_cb)].

(** What never changes of a slider. *)
Definition static (s : Slider) (lo hi : Q) (t : string) : Prop :=
  start s = lo /\ end_ s = hi /\ step s = 0.1%Q /\ slider_title s = t.

(** The events of a run that are changes of a slider. *)
Definition slider_events (evs : list event) : list event :=
  List.filter (fun ev => match ev with
                         | SliderChange _ _ => true
                         | DropdownChange _ _ => false
                         end) evs.

Section Vocabulary.

Variable load_data : string -> result (list Q).
Variable HGF_input_data : hgf_config -> list Q -> result HGF.

(** The fit the handler asks for in state [st]. *)
Definition refit (st : app_state) : result node * world :=
  fit_hgf HGF_input_data (timeseries st)
    (value (slider1 st)) (value (slider2 st))
    (value (slider3 st)) (value (slider4 st)) (outside st).

(** The column came out of a run of [plot_trajectories] with its defaults,
    on a model the library returned for the time series. *)
Definition produced (ts : list Q) (plot : node) : Prop :=
  exists cfg hgf n n',
    HGF_input_data cfg ts = OK hgf /\
    plot_trajectories_default hgf n = (OK plot, n').

Definition fit_call (ts : list Q) (c : call) : Prop :=
  exists cfg omega1 omega2 mu1 mu2,
    c = Call_HGF cfg ts /\ fixed_config cfg omega1 omega2 mu1 mu2.

Record good (st : app_state) : Prop := {
  good_timeseries : load_data "continuous" = OK (timeseries st);
  good_handlers : handlers st = value_handlers;
  good_roots : curdoc_roots st = [layout_root];
  good_layout :
    exists plot, layout st = NColumn [app_title; widgets; plot] [] /\
                 produced (timeseries st) plot;
  good_slider1 : static (slider1 st) (-20.0)%Q 5.0%Q "Omega 1";
  good_slider2 : static (slider2 st) (-20.0)%Q 5.0%Q "Omega 2";
  good_slider3 : static (slider3 st) (-20.0)%Q 20.0%Q "Mu 1";
  good_slider4 : static (slider4 st) (-20.0)%Q 20.0%Q "Mu 2";
  good_calls :
    exists fits, calls (outside st) = Call_load_data "continuous" :: fits /\
                 Forall (fit_call (timeseries st)) fits
  }.

(** The fit raises [e]: the library does when it builds the model, or the
    plotting code does on the model it is given. *)
Definition fit_raises (st : app_state) (e : exn) : Prop :=
  exists cfg,
    fixed_config cfg (value (slider1 st)) (value (slider2 st))
      (value (slider3 st)) (value (slider4 st)) /\
    (HGF_input_data cfg (timeseries st) = Raise e \/
     exists hgf, HGF_input_data cfg (timeseries st) = OK hgf /\
                 fst (plot_trajectories_default hgf (next_id (outside st)))
                 = Raise e).

End Vocabulary.

(** ** A stand-in for the inference library, for running the code *)

(** A two-node model, as the application fits. *)
Definition demo_df : DataFrame :=
  {| columns := ["time"; "observation"; "surprise";
                 "node_1_muhat"; "node_1_pihat"; "node_1_surprise";
                 "node_2_muhat"; "node_2_pihat"; "node_2_surprise"];
     nrows := 3 |}.

Definition demo_hgf (mt : string) : HGF :=
  {| model_type := mt; to_pandas := OK demo_df; surprise := OK 1.5%Q |}.

(** A model without nodes. *)
Definition empty_hgf : HGF :=
  {| model_type := "continuous";
     to_pandas := OK {| columns := ["time"; "observation"; "surprise"]; nrows := 3 |};
     surprise := OK 0%Q |}.

Definition demo_load_data (name : string) : result (list Q) :=
  if String.eqb name "continuous" then OK [1.0%Q; 1.1%Q; 0.9%Q]
  else Raise (LibraryError "unknown dataset").

(** Refuses a positive first omega, and otherwise returns a two-node model. *)
Definition demo_HGF (cfg : hgf_config) (ts : list Q) : result HGF :=
  match omega cfg !! "1" with
  | Some o => if Qle_bool o 0 then OK (demo_hgf (cfg_model_type cfg))
              else Raise (LibraryError "invalid parameters")
  | None => Raise (KeyError "1")
  end.

(** ** What a run reads of the model *)

(** A run that returns reads the observations for the circles of node 1 of
    a continuous model and for the line of the selection strip. *)
Definition needs_observation (hgf : HGF) (slider : bool) : bool :=
  slider || String.eqb (model_type hgf) "continuous".

(** The columns of node [i] a run reads: the mean and the precision always,
    the surprise when it is to be drawn. *)
Definition node_readable (df : DataFrame) (with_surprise : bool) (i : nat)
    : bool :=
  bool_decide (node_col i "muhat" ∈ columns df)
  && bool_decide (node_col i "pihat" ∈ columns df)
  && (negb with_surprise || bool_decide (node_col i "surprise" ∈ columns df)).

Definition plottable (hgf : HGF) (with_surprise : bool) (figsize : Z)
    (slider : bool) : bool :=
  match to_pandas hgf, surprise hgf with
  | OK df, OK _ =>
      negb (String.eqb (model_type hgf) "binary")
      && (0 <=? figsize)%Z
      && bool_decide ("time" ∈ columns df)
      && bool_decide ("surprise" ∈ columns df)
      && negb (nrows df =? 0)%nat
      && negb (count_nodes df =? 0)%nat
      && (negb (needs_observation hgf slider)
          || bool_decide ("observation" ∈ columns df))
      && forallb (node_readable df with_surprise) (seq 1 (count_nodes df))
  | _, _ => false
  end.

(** A table with one column that counts as a node and is not named after
    one, and a table of one node without rows. *)
Definition misnamed_hgf : HGF :=
  {| model_type := "continuous";
     to_pandas := OK {| columns := ["time"; "observation"; "surprise"; "x_muhat"];
                        nrows := 3 |};
     surprise := OK 0%Q |}.

Definition rowless_hgf : HGF :=
  {| model_type := "continuous";
     to_pandas := OK {| columns := ["time"; "observation"; "surprise";
                                    "node_1_muhat"; "node_1_pihat";
                                    "node_1_surprise"];
                        nrows := 0 |};
     surprise := OK 0%Q |}.

(** The vertical range made for the band of node [i]. *)
Definition band_range (i : nat) : range_kind :=
  let mu := Col (node_col i "muhat") in
  let sd := Sqrt (RDiv 1 (Col (node_col i "pihat"))) in
  Range1d (Min (Sub mu sd)) (Max (Add mu sd)).

(** The value a glyph call gives keyword [k], if it gives one. *)
Definition glyph_kwarg (k : string) (g : glyph) : option pyvalue :=
  match g with
  | Glyph _ _ kw =>
      snd <$> List.find (fun p => String.eqb (fst p) k) kw
  end.

(** The widgets a tree shows. *)
Fixpoint widgets_of (nd : node) : list widget :=
  match nd with
  | NWidget w => [w]
  | NRow children | NColumn children _ => List.flat_map widgets_of children
  | NDiv _ _ _ | NFigure _ => []
  end.

(** The events of a run that reach the handler: the changes of the value of
    one of the four sliders. *)
Definition refits (evs : list event) : nat :=
  length (List.filter (fun ev => match ev with
                                 | SliderChange w _ => negb (bool_decide (w = dropdown_w))
                                 | DropdownChange _ _ => false
                                 end) evs).

(** The last call into the library built the model of the values the sliders
    hold, and the layout shows what [plot_trajectories] returned for it, if it
    returned. *)
Definition in_sync (HGF_input_data : hgf_config -> list Q -> result HGF)
    (st : app_state) : Prop :=
  exists cfg,
    fixed_config cfg (value (slider1 st)) (value (slider2 st))
      (value (slider3 st)) (value (slider4 st)) /\
    last (calls (outside st)) = Some (Call_HGF cfg (timeseries st)) /\
    forall hgf,
      HGF_input_data cfg (timeseries st) = OK hgf ->
      exists n, forall plot n',
        plot_trajectories_default hgf n = (OK plot, n') ->
        layout st = NColumn [app_title; widgets; plot] [].





(** * Properties *)

(** ** The code on small inputs *)

Example contains_muhat :
  contains "_muhat" "node_12_muhat" = true /\
  contains "_muhat" "node_1_pihat" = false /\
  contains "_muhat" "" = false.
Proof. repeat split. Qed.

Example node_col_12 : node_col 12 "muhat" = "node_12_muhat".
Proof. reflexivity. Qed.

Example demo_df_nodes : count_nodes demo_df = 2%nat.
Proof. reflexivity. Qed.

Example palette_cycles : next_color 5 = next_color 0 /\ next_color 6 = "#d95f02".
Proof. split; reflexivity. Qed.

Example selector_height : Z.quot (200 * 4) 10 = 80%Z.
Proof. reflexivity. Qed.

Example demo_is_well_formed :
  well_formed (demo_hgf "continuous") = true /\ well_formed empty_hgf = false.
Proof. split; reflexivity. Qed.

(** ** Inversion of computations *)

Section Inversion.

Context {St A B : Type}.

Lemma bind_OK (m : ST St A) (k : A -> ST St B) s b s' :
  bind m k s = (OK b, s') ->
  exists a s1, m s = (OK a, s1) /\ k a s1 = (OK b, s').
Proof.
  unfold bind. destruct (m s) as [[a|e] s1]; [eauto | discriminate].
Qed.


Lemma bind_step_OK (m : ST St A) (k : A -> ST St B) s a s1 :
  m s = (OK a, s1) -> bind m k s = k a s1.
Proof. unfold bind. now intros ->. Qed.

Lemma ret_OK (a b : A) (s s' : St) : ret a s = (OK b, s') -> b = a /\ s' = s.
Proof. unfold ret. now intros [= -> ->]. Qed.

Lemma lift_OK (r : result A) (b : A) (s s' : St) :
  lift r s = (OK b, s') -> r = OK b /\ s' = s.
Proof. unfold lift. now intros [= -> ->]. Qed.

End Inversion.

Lemma read_local_OK {A} name (v : option A) (a : A) (n n' : nat) :
  read_local name v n = (OK a, n') -> v = Some a /\ n' = n.
Proof. destruct v; cbn; [now intros [= -> ->] | discriminate]. Qed.

Lemma df_getitem_OK df name n s n' :
  df_getitem df name n = (OK s, n') ->
  s = Col name /\ n' = n /\ name ∈ columns df.
Proof.
  unfold df_getitem. case_bool_decide; cbn; [| discriminate].
  now intros [= <- <-].
Qed.

Lemma df_getattr_OK df name n s n' :
  df_getattr df name n = (OK s, n') ->
  s = Col name /\ n' = n /\ name ∈ columns df.
Proof.
  unfold df_getattr. case_bool_decide; cbn; [| discriminate].
  now intros [= <- <-].
Qed.

Lemma iloc_OK df s i n c n' :
  iloc df s i n = (OK c, n') -> c = Iloc s i /\ n' = n /\ nrows df <> 0%nat.
Proof.
  unfold iloc. case_decide; cbn; [discriminate |]. now intros [= <- <-].
Qed.

Lemma alloc_range_OK k n r n' :
  alloc_range k n = (OK r, n') -> r = {| rid := n; rkind := k |} /\ n' = S n.
Proof. unfold alloc_range. now intros [= <- <-]. Qed.

Lemma check_height_OK kw n u n' :
  check_height kw n = (OK u, n') -> n' = n /\ height_ok kw = true.
Proof.
  unfold check_height. destruct (height_ok kw); [| discriminate].
  now intros [= _ <-].
Qed.

Lemma check_height_pass kw n :
  height_ok kw = true -> check_height kw n = (OK tt, n).
Proof. unfold check_height. now intros ->. Qed.

(** The heights the source asks for: [figsize] for a node figure and for the
    figure of the global surprise, two fifths of it for the strip. *)
Lemma height_ok_node figsize :
  height_ok [("sizing_mode", VStr "stretch_width"); ("height", VInt figsize);
             ("x_axis_label", VStr "Time"); ("y_axis_label", VStr "Input");
             ("output_backend", VStr "webgl")]
  = (0 <=? figsize)%Z.
Proof. reflexivity. Qed.

Lemma height_ok_surprise figsize :
  height_ok [("sizing_mode", VStr "stretch_width"); ("height", VInt figsize);
             ("x_axis_label", VStr "Time"); ("y_axis_label", VStr "Surprise");
             ("output_backend", VStr "webgl")]
  = (0 <=? figsize)%Z.
Proof. reflexivity. Qed.

Lemma height_ok_selector figsize :
  height_ok [("y_axis_type", VNone);
             ("height", VInt (Z.quot (figsize * 4) 10));
             ("sizing_mode", VStr "stretch_width");
             ("output_backend", VStr "webgl"); ("tools", VStr "");
             ("toolbar_location", VNone);
             ("background_fill_color", VStr "#efefef")]
  = (0 <=? Z.quot (figsize * 4) 10)%Z.
Proof. reflexivity. Qed.

Lemma selector_height_nonneg figsize :
  (0 <= figsize)%Z -> (0 <=? Z.quot (figsize * 4) 10)%Z = true.
Proof. intros H. apply Z.leb_le, Z.quot_pos; lia. Qed.

(** The two calls of [circle] in the source. *)
Lemma circle_continuous t o f :
  circle [VSeries t; VSeries o]
    [("size", VInt 2); ("legend_label", VStr "Input");
     ("fill_color", VStr "#2a2a2a"); ("line_color", VStr "#2a2a2a");
     ("alpha", VNum 0.5)] f
  = ret (add_glyph
           (Glyph "circle" [VSeries t; VSeries o]
              [("size", VInt 2); ("legend_label", VStr "Input");
               ("fill_color", VStr "#2a2a2a"); ("line_color", VStr "#2a2a2a");
               ("alpha", VNum 0.5)]) f).
Proof. reflexivity. Qed.

Lemma circle_binary t o f :
  circle []
    [("x", VSeries t); ("y", VSeries o); ("legend_label", VStr "Input");
     ("fill_color", VStr "#4c72b0"); ("line_color", VStr "grey");
     ("alpha", VNum 0.4); ("edgecolors", VStr "k"); ("size", VInt 10)] f
  = raise (AttributeError "edgecolors").
Proof. reflexivity. Qed.

(** Decomposes every successful computation among the hypotheses. *)
Ltac inv_OK :=
  repeat match goal with
    | H : raise _ _ = (OK _, _) |- _ => discriminate H
    | H : check_height _ _ = (OK _, _) |- _ =>
        apply check_height_OK in H; destruct H as [? H]; subst
    | H : context [circle [VSeries _; VSeries _] _ _] |- _ =>
        rewrite circle_continuous in H
    | H : context [circle [] _ _] |- _ => rewrite circle_binary in H
    | H : bind _ _ _ = (OK _, _) |- _ =>
        apply bind_OK in H; destruct H as (? & ? & ? & H); cbv beta zeta in H
    | H : ret _ _ = (OK _, _) |- _ => apply ret_OK in H; destruct H as [? ?]; subst
    | H : lift _ _ = (OK _, _) |- _ => apply lift_OK in H; destruct H as [H ?]; subst
    | H : read_local _ _ _ = (OK _, _) |- _ =>
        apply read_local_OK in H; destruct H as [? ?]; subst
    | H : df_getitem _ _ _ = (OK _, _) |- _ =>
        apply df_getitem_OK in H; destruct H as (? & ? & H); subst
    | H : df_getattr _ _ _ = (OK _, _) |- _ =>
        apply df_getattr_OK in H; destruct H as (? & ? & H); subst
    | H : iloc _ _ _ _ = (OK _, _) |- _ =>
        apply iloc_OK in H; destruct H as (? & ? & H); subst
    | H : alloc_range _ _ = (OK _, _) |- _ =>
        apply alloc_range_OK in H; destruct H as [? ?]; subst
    end.

(** ** What a node figure shows *)

Lemma node_x_range_OK df cols lp n xr xa n' :
  node_x_range df cols lp n = (OK xa, n') ->
  entry cols lp n xr ->
  n' = n /\ exists m, range_of_arg (Some xa) n = (OK xr, m) /\ (n <= m)%nat.
Proof.
  unfold node_x_range, entry. intros H Hentry.
  destruct (length cols =? 0)%nat; cbn [negb] in H; inv_OK.
  - split; [reflexivity |]. exists (S n). subst. cbn. split; [reflexivity | lia].
  - destruct Hentry as (lp' & [= <-] & <-).
    split; [reflexivity |]. exists n. cbn. split; [reflexivity | lia].
Qed.

Lemma plot_input_OK hgf df i f n f' n' :
  plot_input hgf df i f n = (OK f', n') ->
  n' = n /\ same_frame f f' /\
  layouts f' = layouts f /\ extra_y_ranges f' = extra_y_ranges f /\
  renderers f' = renderers f ++
    (if (i =? 1)%nat then observation_circles (model_type hgf) else []).
Proof.
  unfold plot_input, same_frame, observation_circles. intros H.
  destruct (i =? 1)%nat;
    [destruct (String.eqb (model_type hgf) "continuous");
     [| destruct (String.eqb (model_type hgf) "binary")] |];
    inv_OK; cbn; rewrite ?app_nil_r; auto 10.
Qed.

Lemma plot_mean_OK df i color f n f' n' :
  plot_mean df (Col (node_col i "muhat")) color f n = (OK f', n') ->
  n' = n /\ same_frame f f' /\
  layouts f' = layouts f /\ extra_y_ranges f' = extra_y_ranges f /\
  renderers f' = renderers f ++ [mean_line i color].
Proof.
  unfold plot_mean, same_frame. intros H. inv_OK. cbn. auto 10.
Qed.

Lemma plot_sd_OK hgf df ci i color f n f' n' :
  plot_sd hgf df ci i (Col (node_col i "pihat")) color f n = (OK f', n') ->
  (n <= n')%nat /\ same_frame f f' /\
  layouts f' = layouts f /\ extra_y_ranges f' = extra_y_ranges f /\
  renderers f' = renderers f ++
    (if shows_band hgf ci i then [uncertainty_band i color] else []).
Proof.
  unfold plot_sd, same_frame, shows_band. intros H.
  destruct ci; cbn [andb];
    [destruct (negb (String.eqb (model_type hgf) "binary" && (i =? 1)%nat)) |];
    inv_OK; cbn; rewrite ?app_nil_r; repeat split; auto; lia.
Qed.

Lemma plot_surprise_OK df with_surprise i f n f' n' :
  plot_surprise df with_surprise i f n = (OK f', n') ->
  (n <= n')%nat /\ same_frame f f' /\
  layouts f' = layouts f ++
    (if with_surprise then [(surprise_axis, "right")] else []) /\
  renderers f' = renderers f ++
    (if with_surprise then [surprise_line i; surprise_area i] else []) /\
  (if with_surprise
   then exists r, extra_y_ranges f' = <["surprise" := r]> (extra_y_ranges f)
                  /\ rkind r = surprise_range i
   else extra_y_ranges f' = extra_y_ranges f).
Proof.
  unfold plot_surprise, same_frame. intros H.
  destruct with_surprise; inv_OK; cbn; rewrite ?app_nil_r.
  - repeat split; auto; [now rewrite <- app_assoc | eexists; split; reflexivity].
  - repeat split; auto.
Qed.

Lemma node_figure_OK hgf df ci with_surprise figsize i color cols lp n xr f n' :
  node_figure hgf df ci with_surprise figsize i color cols lp n = (OK f, n') ->
  entry cols lp n xr ->
  node_spec hgf ci with_surprise i color xr f /\ (n < n')%nat.
Proof.
  unfold node_figure. intros H Hentry.
  apply bind_OK in H as (mu & n1 & Hmu & H).
  apply df_getitem_OK in Hmu as (-> & -> & _).
  apply bind_OK in H as (pi & n2 & Hpi & H).
  apply df_getitem_OK in Hpi as (-> & -> & _).
  apply bind_OK in H as (xa & n3 & Hx & H).
  eapply node_x_range_OK in Hx as (-> & m & Hxa & Hm); [| exact Hentry].
  apply bind_OK in H as (f0 & n4 & Hnew & H).
  unfold new_figure in Hnew.
  apply bind_OK in Hnew as (u & n0 & Hh & Hnew).
  apply check_height_OK in Hh as [-> _].
  rewrite (bind_step_OK _ _ _ _ _ Hxa) in Hnew. cbn in Hnew.
  injection Hnew as <- <-.
  apply bind_OK in H as (f1 & n5 & H1 & H).
  apply plot_input_OK in H1 as (-> & (T1 & X1 & L1) & A1 & E1 & R1).
  apply bind_OK in H as (f2 & n6 & H2 & H).
  apply plot_mean_OK in H2 as (-> & (T2 & X2 & L2) & A2 & E2 & R2).
  apply bind_OK in H as (f3 & n7 & H3 & H).
  apply plot_sd_OK in H3 as (Hn3 & (T3 & X3 & L3) & A3 & E3 & R3).
  apply plot_surprise_OK in H as (Hn4 & (T4 & X4 & L4) & A4 & R4 & E4).
  split; [| lia]. unfold node_spec, node_glyphs.
  rewrite T4, T3, T2, T1, X4, X3, X2, X1, L4, L3, L2, L1, A4, A3, A2, A1,
    R4, R3, R2, R1. cbn [title x_range tools layouts renderers].
  repeat split.
  - now rewrite <- !app_assoc.
  - destruct with_surprise.
    + destruct E4 as (r & -> & Hr). rewrite lookup_insert_eq. cbn. now rewrite Hr.
    + rewrite E4, E3, E2, E1. cbn. reflexivity.
Qed.

(** ** The loop over the nodes *)

Lemma entry_after cols f n xr :
  x_range f = xr -> entry (cols ++ [f]) (Some f) n xr.
Proof.
  intros Hx. unfold entry. rewrite length_app, Nat.add_comm. cbn. eauto.
Qed.

Lemma node_loop_OK hgf df ci with_surprise figsize i :
  forall drawn cols lp n xr cols' lp' n',
    node_loop hgf df ci with_surprise figsize i drawn cols lp n
      = (OK (cols', lp'), n') ->
    entry cols lp n xr ->
    (n <= n')%nat /\
    exists figs,
      cols' = cols ++ figs /\ length figs = i /\
      (forall j f, figs !! j = Some f ->
         node_spec hgf ci with_surprise (i - j) (next_color (drawn + j)) xr f) /\
      match i with
      | O => lp' = lp
      | S k => exists p, lp' = Some p /\ figs !! k = Some p
      end.
Proof.
  induction i as [|k IH]; intros drawn cols lp n xr cols' lp' n' H Hentry.
  - cbn in H. apply ret_OK in H as [[= -> ->] ->].
    split; [lia |]. exists []. rewrite app_nil_r.
    split; [reflexivity |]. split; [reflexivity |]. split; [| reflexivity].
    intros j f Hj. now rewrite lookup_nil in Hj.
  - cbn [node_loop] in H.
    apply bind_OK in H as (fig & n1 & Hfig & H). cbv beta in H.
    eapply node_figure_OK in Hfig as [Hspec Hlt]; [| exact Hentry].
    assert (Hx : x_range fig = xr) by apply Hspec.
    eapply IH in H as (Hle & figs & -> & Hlen & Hall & Hlast);
      [| apply entry_after; exact Hx].
    split; [lia |]. exists (fig :: figs).
    rewrite <- app_assoc. cbn [app length].
    split; [reflexivity |]. split; [now rewrite Hlen |]. split.
    + intros [|j] f Hj; cbn in Hj.
      * injection Hj as <-. now rewrite Nat.sub_0_r, Nat.add_0_r.
      * rewrite Nat.add_succ_r. cbn [Nat.sub]. now apply Hall.
    + destruct k as [|k'].
      * subst lp'. exists fig. now destruct figs.
      * destruct Hlast as (p & -> & Hp). exists p. now split.
Qed.

(** ** The global surprise and the range selector *)

Lemma global_surprise_OK hgf df figsize lp n f n' :
  global_surprise hgf df figsize lp n = (OK f, n') ->
  exists p, lp = Some p /\ surprise_spec hgf (x_range p) f /\ (n < n')%nat.
Proof.
  unfold global_surprise, new_figure, range_of_arg, surprise_spec. intros H.
  inv_OK. eexists; split; [reflexivity |]. cbn.
  repeat split; eauto.
Qed.

Lemma range_selector_OK df figsize lp sp n f n' :
  range_selector df figsize lp sp n = (OK f, n') ->
  exists p, lp = Some p /\ selector_spec (x_range sp) (y_range p) n f /\ (n < n')%nat.
Proof.
  unfold range_selector, new_figure, range_of_arg, selector_spec. intros H.
  inv_OK. eexists; split; [reflexivity |]. cbn.
  repeat split; eauto.
Qed.

(** ** The column [plot_trajectories] returns *)

Lemma plot_trajectories_OK hgf ci with_surprise figsize slider n nd n' :
  plot_trajectories hgf ci with_surprise figsize slider n = (OK nd, n') ->
  exists df figs sp rest,
    to_pandas hgf = OK df /\
    nd = NColumn (NFigure <$> (figs ++ sp :: rest)) column_kwargs /\
    length figs = count_nodes df /\
    count_nodes df <> 0%nat /\
    (forall j f, figs !! j = Some f ->
       node_spec hgf ci with_surprise (count_nodes df - j) (next_color j)
         (time_range n) f) /\
    surprise_spec hgf (time_range n) sp /\
    (if slider
     then exists sel p m, rest = [sel] /\ figs !! (count_nodes df - 1)%nat = Some p /\
                          selector_spec (time_range n) (y_range p) m sel /\
                          (n < m)%nat
     else rest = []).
Proof.
  unfold plot_trajectories. intros H.
  apply bind_OK in H as (df & n0 & Hdf & H). cbv beta zeta in H.
  apply lift_OK in Hdf as [Hdf ->].
  apply bind_OK in H as ([cols lp] & n1 & Hloop & H). cbv beta zeta in H.
  cbn [fst snd] in H.
  eapply (node_loop_OK _ _ _ _ _ _ _ _ _ _ (time_range n)) in Hloop
    as (Hle & figs & -> & Hlen & Hall & Hlast); [| reflexivity].
  apply bind_OK in H as (sp & n2 & Hsp & H). cbv beta zeta in H.
  apply global_surprise_OK in Hsp as (p & -> & Hsp & Hlt).
  destruct (count_nodes df) as [|k] eqn:Hk; [discriminate |].
  destruct Hlast as (p' & [= <-] & Hp).
  assert (Hxp : x_range p = time_range n) by (apply (Hall _ _ Hp)).
  rewrite Hxp in Hsp.
  apply bind_OK in H as (cols & n3 & Hcols & H). cbv beta in H.
  apply ret_OK in H as [-> ->].
  exists df, figs, sp. rewrite Hk. cbn [Nat.add] in Hall.
  destruct slider.
  - apply bind_OK in Hcols as (sel & n4 & Hsel & Hcols). cbv beta in Hcols.
    apply ret_OK in Hcols as [-> ->].
    apply range_selector_OK in Hsel as (p'' & [= <-] & Hsel & Hlt').
    assert (Hxs : x_range sp = time_range n) by apply Hsp.
    rewrite Hxs in Hsel.
    exists [sel]. cbn [app]. rewrite <- app_assoc. cbn [app].
    split_and!; auto.
    exists sel, p, n2. cbn [Nat.sub]. rewrite Nat.sub_0_r. split_and!; auto. lia.
  - apply ret_OK in Hcols as [-> ->]. exists []. cbn [app].
    split_and!; auto.
Qed.

(** ** What the toolkit accepts

    A column is returned only when the toolkit has accepted every call: the
    height is no negative number, and the model is not a binary one, whose
    circles are refused. *)

Lemma plot_input_accepts hgf df f n f' n' :
  plot_input hgf df 1 f n = (OK f', n') -> model_type hgf <> "binary".
Proof.
  unfold plot_input. cbn [Nat.eqb]. intros H Hb. rewrite Hb in H.
  cbn in H. inv_OK.
Qed.

Lemma node_figure_accepts hgf df ci with_surprise figsize i color cols lp n f n' :
  node_figure hgf df ci with_surprise figsize i color cols lp n = (OK f, n') ->
  (0 <= figsize)%Z /\ (i = 1%nat -> model_type hgf <> "binary").
Proof.
  unfold node_figure. intros H.
  apply bind_OK in H as (mu & n1 & _ & H).
  apply bind_OK in H as (pi & n2 & _ & H).
  apply bind_OK in H as (xa & n3 & _ & H).
  apply bind_OK in H as (f0 & n4 & Hnew & H).
  apply bind_OK in H as (f1 & n5 & H1 & _).
  split.
  - unfold new_figure in Hnew.
    apply bind_OK in Hnew as (u & n0 & Hh & _).
    apply check_height_OK in Hh as [_ Hh].
    rewrite height_ok_node in Hh. now apply Z.leb_le.
  - intros ->. exact (plot_input_accepts _ _ _ _ _ _ H1).
Qed.

Lemma node_loop_accepts hgf df ci with_surprise figsize i :
  forall drawn cols lp n r n',
    node_loop hgf df ci with_surprise figsize i drawn cols lp n = (OK r, n') ->
    i <> 0%nat ->
    (0 <= figsize)%Z /\ model_type hgf <> "binary".
Proof.
  induction i as [|k IH]; intros drawn cols lp n r n' H Hi; [congruence |].
  cbn [node_loop] in H.
  apply bind_OK in H as (fig & n1 & Hfig & H). cbv beta in H.
  apply node_figure_accepts in Hfig as [Hsize Hbin].
  destruct k as [|k'].
  - split; [exact Hsize | now apply Hbin].
  - eapply IH; [exact H | discriminate].
Qed.

Lemma plot_trajectories_accepts hgf ci with_surprise figsize slider n nd n' :
  plot_trajectories hgf ci with_surprise figsize slider n = (OK nd, n') ->
  (0 <= figsize)%Z /\ model_type hgf <> "binary".
Proof.
  intros H.
  pose proof (plot_trajectories_OK _ _ _ _ _ _ _ _ H)
    as (df & _ & _ & _ & Hdf & _ & _ & Hn & _).
  unfold plot_trajectories in H. rewrite Hdf in H.
  unfold lift at 1, bind at 1 in H. cbv beta iota zeta in H.
  apply bind_OK in H as (loop & n1 & Hloop & _).
  exact (node_loop_accepts _ _ _ _ _ _ _ _ _ _ _ _ Hloop Hn).
Qed.

(** ** Models on which the plot is produced *)

Lemma has_columns_elem df names c :
  has_columns df names = true -> c ∈ names -> c ∈ columns df.
Proof.
  unfold has_columns. rewrite forallb_forall. intros H Hc.
  apply list_elem_of_In in Hc. apply H in Hc. now apply bool_decide_eq_true in Hc.
Qed.

Lemma well_formed_inv hgf :
  well_formed hgf = true ->
  exists df s,
    to_pandas hgf = OK df /\ surprise hgf = OK s /\
    has_columns df ["time"; "observation"; "surprise"] = true /\
    nrows df <> 0%nat /\ count_nodes df <> 0%nat /\
    forall i, (1 <= i <= count_nodes df)%nat ->
              has_columns df (node_columns i) = true.
Proof.
  unfold well_formed.
  destruct (to_pandas hgf) as [df|]; [| discriminate].
  destruct (surprise hgf) as [s|]; [| discriminate].
  rewrite !andb_true_iff, !negb_true_iff, !Nat.eqb_neq, forallb_forall.
  intros [[[Hc Hr] Hn] Hall]. exists df, s. split_and!; auto.
  intros i Hi. apply Hall, in_seq. lia.
Qed.

Lemma df_getitem_total df name n :
  name ∈ columns df -> df_getitem df name n = (OK (Col name), n).
Proof. intros H. unfold df_getitem. now rewrite bool_decide_eq_true_2. Qed.

Lemma df_getattr_total df name n :
  name ∈ columns df -> df_getattr df name n = (OK (Col name), n).
Proof. intros H. unfold df_getattr. now rewrite bool_decide_eq_true_2. Qed.

Lemma iloc_total df s i n :
  nrows df <> 0%nat -> iloc df s i n = (OK (Iloc s i), n).
Proof. intros H. unfold iloc. now rewrite decide_False. Qed.

(** Runs a computation whose table reads all succeed. *)
Ltac run_reads :=
  unfold bind, ret; cbv beta iota zeta;
  repeat (first [ rewrite df_getattr_total by assumption
                | rewrite df_getitem_total by assumption
                | rewrite iloc_total by assumption ];
          cbv beta iota zeta).

Section Totality.

Variable hgf : HGF.
Variable df : DataFrame.
Variables ci with_surprise : bool.
Variable figsize : Z.
Hypothesis Hcols : has_columns df ["time"; "observation"; "surprise"] = true.
Hypothesis Hrows : nrows df <> 0%nat.
Hypothesis Hbin : model_type hgf <> "binary".
Hypothesis Hsize : (0 <= figsize)%Z.

Let Htime : "time" ∈ columns df.
Proof. apply (has_columns_elem _ _ _ Hcols). repeat constructor. Qed.
Let Hobs : "observation" ∈ columns df.
Proof. apply (has_columns_elem _ _ _ Hcols). repeat constructor. Qed.
Let Hsur : "surprise" ∈ columns df.
Proof. apply (has_columns_elem _ _ _ Hcols). repeat constructor. Qed.

Lemma node_x_range_total cols lp n :
  (cols = [] \/ is_Some lp) ->
  exists xa n', node_x_range df cols lp n = (OK xa, n').
Proof.
  unfold node_x_range. intros [-> | [p ->]].
  - cbn [length Nat.eqb negb]. run_reads. eauto.
  - destruct (negb _); cbn [read_local]; run_reads; eauto.
Qed.

Lemma new_figure_total t kw xr yr n :
  height_ok kw = true ->
  exists f n', new_figure t kw xr yr n = (OK f, n').
Proof.
  intros Hh. unfold new_figure.
  rewrite (bind_step_OK _ _ _ _ _ (check_height_pass _ n Hh)).
  unfold range_of_arg, alloc_range.
  destruct xr as [[? ?|?]|], yr as [[? ?|?]|]; run_reads; eauto.
Qed.

Lemma plot_input_total i f n :
  exists f' n', plot_input hgf df i f n = (OK f', n').
Proof.
  unfold plot_input.
  destruct (i =? 1)%nat;
    [destruct (String.eqb _ "continuous");
     [| destruct (String.eqb_spec (model_type hgf) "binary"); [contradiction |]] |];
    run_reads; rewrite ?circle_continuous; unfold ret; eauto.
Qed.

Lemma plot_mean_total mu color f n :
  exists f' n', plot_mean df mu color f n = (OK f', n').
Proof. unfold plot_mean. run_reads. eauto. Qed.

Lemma plot_sd_total i pi color f n :
  node_col i "muhat" ∈ columns df ->
  exists f' n', plot_sd hgf df ci i pi color f n = (OK f', n').
Proof.
  intros Hmu. unfold plot_sd, alloc_range.
  destruct ci; [destruct (negb _) |]; run_reads; eauto.
Qed.

Lemma plot_surprise_total i f n :
  node_col i "surprise" ∈ columns df ->
  exists f' n', plot_surprise df with_surprise i f n = (OK f', n').
Proof.
  intros Hs. unfold plot_surprise, alloc_range.
  destruct with_surprise; run_reads; eauto.
Qed.

Lemma node_figure_total i color cols lp n :
  has_columns df (node_columns i) = true ->
  (cols = [] \/ is_Some lp) ->
  exists f n', node_figure hgf df ci with_surprise figsize i color cols lp n
               = (OK f, n').
Proof.
  intros Hnode Hlp.
  assert (Hmu : node_col i "muhat" ∈ columns df)
    by (apply (has_columns_elem _ _ _ Hnode); unfold node_columns; repeat constructor).
  assert (Hpi : node_col i "pihat" ∈ columns df)
    by (apply (has_columns_elem _ _ _ Hnode); unfold node_columns; repeat constructor).
  assert (Hs : node_col i "surprise" ∈ columns df)
    by (apply (has_columns_elem _ _ _ Hnode); unfold node_columns; repeat constructor).
  unfold node_figure.
  rewrite (bind_step_OK _ _ _ _ _ (df_getitem_total _ _ n Hmu)).
  rewrite (bind_step_OK _ _ _ _ _ (df_getitem_total _ _ n Hpi)).
  destruct (node_x_range_total cols lp n Hlp) as (xa & n1 & H1).
  rewrite (bind_step_OK _ _ _ _ _ H1).
  match goal with
  | |- context [new_figure ?t ?kw ?xr ?yr] =>
      destruct (new_figure_total t kw xr yr n1) as (f0 & n2 & H2);
        [rewrite height_ok_node; now apply Z.leb_le |]
  end.
  rewrite (bind_step_OK _ _ _ _ _ H2).
  edestruct plot_input_total as (f1 & n3 & H3).
  rewrite (bind_step_OK _ _ _ _ _ H3).
  edestruct plot_mean_total as (f2 & n4 & H4).
  rewrite (bind_step_OK _ _ _ _ _ H4).
  edestruct plot_sd_total as (f3 & n5 & H5); [exact Hmu |].
  rewrite (bind_step_OK _ _ _ _ _ H5).
  apply plot_surprise_total, Hs.
Qed.

Lemma node_loop_total i :
  forall drawn cols lp n,
    (forall j, (1 <= j <= i)%nat -> has_columns df (node_columns j) = true) ->
    (cols = [] \/ is_Some lp) ->
    exists r n', node_loop hgf df ci with_surprise figsize i drawn cols lp n
                 = (OK r, n').
Proof.
  induction i as [|k IH]; intros drawn cols lp n Hall Hlp.
  - cbn. unfold ret. eauto.
  - cbn [node_loop].
    edestruct (node_figure_total (S k)) as (f & n1 & H1);
      [apply Hall; lia | exact Hlp |].
    rewrite (bind_step_OK _ _ _ _ _ H1).
    apply IH; [intros j Hj; apply Hall; lia | right; eauto].
Qed.

Lemma global_surprise_total s p n :
  surprise hgf = OK s ->
  exists f n', global_surprise hgf df figsize (Some p) n = (OK f, n').
Proof.
  intros Hs. unfold global_surprise, lift, read_local, new_figure, check_height.
  rewrite height_ok_surprise, (proj2 (Z.leb_le _ _) Hsize).
  unfold range_of_arg, alloc_range. rewrite Hs. run_reads. eauto.
Qed.

Lemma range_selector_total p sp n :
  exists f n', range_selector df figsize (Some p) sp n = (OK f, n').
Proof.
  unfold range_selector, read_local, new_figure, check_height.
  rewrite height_ok_selector, (selector_height_nonneg _ Hsize).
  unfold range_of_arg, alloc_range. run_reads. eauto.
Qed.

End Totality.

Lemma plot_trajectories_total hgf ci with_surprise figsize slider n :
  well_formed hgf = true ->
  model_type hgf <> "binary" ->
  (0 <= figsize)%Z ->
  exists nd n', plot_trajectories hgf ci with_surprise figsize slider n = (OK nd, n').
Proof.
  intros (df & s & Hdf & Hs & Hcols & Hrows & Hn & Hall)%well_formed_inv
    Hbin Hsize.
  unfold plot_trajectories. rewrite Hdf.
  unfold lift at 1. unfold bind at 1.
  edestruct (node_loop_total hgf df ci with_surprise figsize Hcols Hrows
               Hbin Hsize
               (count_nodes df) 0%nat [] None n) as ([cols lp] & n1 & Hloop);
    [exact Hall | now left |].
  rewrite (bind_step_OK _ _ _ _ _ Hloop). cbn [fst snd].
  pose proof Hloop as Hloop'.
  eapply (node_loop_OK _ _ _ _ _ _ _ _ _ _ (time_range n)) in Hloop'
    as (_ & figs & -> & _ & _ & Hlast); [| reflexivity].
  destruct (count_nodes df) as [|k]; [congruence |].
  destruct Hlast as (p & -> & _).
  edestruct (global_surprise_total hgf df figsize Hcols Hsize s p n1 Hs)
    as (sp & n2 & Hsp).
  rewrite (bind_step_OK _ _ _ _ _ Hsp).
  destruct slider.
  - edestruct (range_selector_total df figsize Hcols Hsize p sp n2)
      as (sel & n3 & Hsel).
    unfold bind at 1. rewrite (bind_step_OK _ _ _ _ _ Hsel).
    unfold ret. eauto.
  - unfold bind, ret. eauto.
Qed.

(** ** The node figures, one by one *)

Lemma n_nodes_count hgf df : to_pandas hgf = OK df -> n_nodes hgf = count_nodes df.
Proof. unfold n_nodes. now intros ->. Qed.

(** The figure of node [i] sits at position [n_nodes - i] of the column. *)
Lemma node_figure_at hgf ci with_surprise figsize slider n nd n' :
  plot_trajectories hgf ci with_surprise figsize slider n = (OK nd, n') ->
  exists children,
    nd = NColumn children column_kwargs /\
    forall i, (1 <= i <= n_nodes hgf)%nat ->
      exists f,
        children !! (n_nodes hgf - i)%nat = Some (NFigure f) /\
        node_spec hgf ci with_surprise i (next_color (n_nodes hgf - i))
          (time_range n) f.
Proof.
  intros (df & figs & sp & rest & Hdf & -> & Hlen & Hn & Hall & _)%plot_trajectories_OK.
  eexists; split; [reflexivity |].
  rewrite (n_nodes_count _ _ Hdf). intros i Hi.
  destruct (lookup_lt_is_Some_2 figs (count_nodes df - i)) as [f Hf]; [lia |].
  exists f. split.
  - rewrite list_lookup_fmap, lookup_app_l by lia. now rewrite Hf.
  - apply Hall in Hf. replace (count_nodes df - (count_nodes df - i))%nat with i in Hf by lia.
    exact Hf.
Qed.

Lemma band_in_node_glyphs hgf ci with_surprise i color :
  uncertainty_band i color ∈ node_glyphs hgf ci with_surprise i color <->
  shows_band hgf ci i = true.
Proof.
  unfold node_glyphs, observation_circles.
  rewrite !elem_of_app. split.
  - intros [H | [H | [H | H]]].
    + destruct (i =? 1)%nat; [| now apply elem_of_nil in H].
      destruct (String.eqb _ "continuous");
        [apply list_elem_of_singleton in H; discriminate H |].
      now apply elem_of_nil in H.
    + apply list_elem_of_singleton in H. discriminate H.
    + destruct (shows_band hgf ci i); [reflexivity | now apply elem_of_nil in H].
    + destruct with_surprise; [| now apply elem_of_nil in H].
      apply elem_of_cons in H as [H | H]; [discriminate H |].
      apply list_elem_of_singleton in H. discriminate H.
  - intros ->. right. right. left. now apply list_elem_of_singleton.
Qed.




(** ** Positions in the column *)

Section Positions.

Variables (figs : list figure) (sp : figure) (rest : list figure).

Lemma lookup_column_node j :
  (j < length figs)%nat ->
  (NFigure <$> (figs ++ sp :: rest)) !! j = NFigure <$> (figs !! j).
Proof. intros Hj. now rewrite list_lookup_fmap, lookup_app_l. Qed.

Lemma lookup_column_surprise :
  (NFigure <$> (figs ++ sp :: rest)) !! length figs = Some (NFigure sp).
Proof.
  rewrite list_lookup_fmap. now rewrite list_lookup_middle.
Qed.

Lemma lookup_column_rest k :
  (NFigure <$> (figs ++ sp :: rest)) !! S (length figs + k)
  = NFigure <$> (rest !! k).
Proof.
  rewrite list_lookup_fmap, lookup_app_r by lia.
  replace (S (length figs + k) - length figs)%nat with (S k) by lia.
  reflexivity.
Qed.

End Positions.

(** ** The shared horizontal range *)



(** ** The order of the figures and the observations *)

Lemma node_glyphs_observation hgf ci with_surprise i color :
  existsb (glyph_uses "observation") (node_glyphs hgf ci with_surprise i color)
  = (i =? 1)%nat && String.eqb (model_type hgf) "continuous".
Proof.
  unfold node_glyphs, observation_circles.
  destruct (i =? 1)%nat; [destruct (String.eqb _ "continuous") |];
    destruct (shows_band hgf ci i); destruct with_surprise; reflexivity.
Qed.




(** ** The exceptions of the plotting code *)
















(** ** The callbacks *)

Section Callbacks.

Variable load_data : string -> result (list Q).
Variable HGF_input_data : hgf_config -> list Q -> result HGF.

Lemma fit_hgf_inv ts omega1 omega2 mu1 mu2 w r w' :
  fit_hgf HGF_input_data ts omega1 omega2 mu1 mu2 w = (r, w') ->
  exists cfg,
    fixed_config cfg omega1 omega2 mu1 mu2 /\
    calls w' = calls w ++ [Call_HGF cfg ts] /\
    match r with
    | OK plot =>
        exists hgf, HGF_input_data cfg ts = OK hgf /\
                    plot_trajectories_default hgf (next_id w)
                    = (OK plot, next_id w')
    | Raise e =>
        (HGF_input_data cfg ts = Raise e /\ next_id w' = next_id w) \/
        exists hgf, HGF_input_data cfg ts = OK hgf /\
                    plot_trajectories_default hgf (next_id w)
                    = (Raise e, next_id w')
    end.
Proof.
  unfold fit_hgf, log_call, with_ids, lift, bind. cbv beta iota zeta.
  intros H.
  exists {| n_levels := 2;
            cfg_model_type := "continuous";
            initial_mu := {[ "1" := mu1; "2" := mu2 ]};
            initial_pi := {[ "1" := 1e2%Q; "2" := 1e1%Q ]};
            omega := {[ "1" := omega1; "2" := omega2 ]};
            rho := {[ "1" := 0.0%Q; "2" := 0.0%Q ]};
            kappas := {[ "1" := 1.0%Q ]};
            verbose := false |}.
  split; [unfold fixed_config; cbn; split_and!; reflexivity |].
  revert H. cbn [next_id calls].
  destruct (HGF_input_data _ ts) as [hgf|e].
  - destruct (plot_trajectories_default hgf (next_id w)) as [[plot|e] n1] eqn:Hp;
      intros [= <- <-]; cbn; split; eauto.
  - intros [= <- <-]. cbn. split; eauto.
Qed.

Lemma on_change_unfold attrname old new st :
  on_change HGF_input_data attrname old new st =
  match refit HGF_input_data st with
  | (OK plot, w) => layout_setitem 2 plot (set_outside w st)
  | (Raise e, w) => (Raise e, set_outside w st)
  end.
Proof.
  unfold on_change, refit, bind, in_world.
  destruct (fit_hgf _ _ _ _ _ _ _) as [[plot|e] w]; reflexivity.
Qed.

Lemma on_change_three_children attrname old new st c0 c1 c2 kw :
  layout st = NColumn [c0; c1; c2] kw ->
  on_change HGF_input_data attrname old new st =
  match refit HGF_input_data st with
  | (OK plot, w) =>
      (OK tt, set_layout (NColumn [c0; c1; plot] kw) (set_outside w st))
  | (Raise e, w) => (Raise e, set_outside w st)
  end.
Proof.
  intros Hl. rewrite on_change_unfold.
  destruct (refit HGF_input_data st) as [[plot|e] w]; [| reflexivity].
  unfold layout_setitem. cbn [layout set_outside]. rewrite Hl. reflexivity.
Qed.

End Callbacks.

(** ** The states the application goes through *)

Lemma registered_slider w :
  w <> dropdown_w -> registered w "value" value_handlers = [on_change_cb].
Proof. intros Hw. destruct w; [congruence | | | |]; reflexivity. Qed.

Lemma registered_dropdown attr : registered dropdown_w attr value_handlers = [].
Proof. reflexivity. Qed.

Section Reachable.

Variable load_data : string -> result (list Q).
Variable HGF_input_data : hgf_config -> list Q -> result HGF.

Lemma main_good st0 : main load_data HGF_input_data = OK st0 -> good load_data HGF_input_data st0.
Proof.
  unfold main, log_call, lift, bind. cbv beta iota zeta.
  destruct (load_data "continuous") as [ts|e] eqn:Hts; [| discriminate].
  destruct (fit_hgf _ _ _ _ _ _ _) as [[plot|e] w2] eqn:Hfit; [| discriminate].
  intros [= <-].
  apply fit_hgf_inv in Hfit as (cfg & Hcfg & Hcalls & hgf & Hhgf & Hplot).
  split; cbn; try (unfold static; cbn; split_and!; reflexivity); auto.
  - exists plot. split; [reflexivity |]. exists cfg, hgf. eauto.
  - eexists. split; [exact Hcalls |]. repeat constructor.
    exists cfg. do 4 eexists. eauto.
Qed.

Lemma main_values st0 :
  main load_data HGF_input_data = OK st0 ->
  value (slider1 st0) = (-4)%Q /\ value (slider2 st0) = (-4)%Q /\
  value (slider3 st0) = 1.04%Q /\ value (slider4 st0) = 0.0%Q.
Proof.
  unfold main, log_call, lift, bind. cbv beta iota zeta.
  destruct (load_data "continuous") as [ts|e]; [| discriminate].
  destruct (fit_hgf _ _ _ _ _ _ _) as [[plot|e] w2]; [| discriminate].
  intros [= <-]. cbn. auto.
Qed.

Lemma run_one_callback attr old new st :
  run_callbacks HGF_input_data [on_change_cb] attr old new st
  = on_change HGF_input_data attr old new st.
Proof.
  cbn. unfold bind, ret.
  destruct (on_change _ _ _ _ _) as [[[]|e] st']; reflexivity.
Qed.

(** A change of a slider, in a state that holds a three-child layout and the
    handlers of the script: the slider is updated, then the handler runs. *)
Lemma dispatch_slider st w s new c0 c1 c2 kw :
  handlers st = value_handlers ->
  get_slider w st = Some s ->
  layout st = NColumn [c0; c1; c2] kw ->
  let st1 := set_slider w (set_value new s) st in
  dispatch HGF_input_data (SliderChange w new) st =
  match refit HGF_input_data st1 with
  | (OK plot, w') =>
      (OK tt, set_layout (NColumn [c0; c1; plot] kw) (set_outside w' st1))
  | (Raise e, w') => (Raise e, set_outside w' st1)
  end.
Proof.
  intros Hh Hs Hl st1. unfold dispatch. rewrite Hs. unfold trigger.
  change (handlers (set_slider w (set_value new s) st)) with (handlers st).
  rewrite Hh, registered_slider by (intros ->; discriminate Hs).
  rewrite run_one_callback.
  exact (on_change_three_children _ _ _ _ st1 c0 c1 c2 kw Hl).
Qed.

Lemma dispatch_dropdown st attr d :
  handlers st = value_handlers ->
  dispatch HGF_input_data (DropdownChange attr d) st = (OK tt, set_dropdown d st).
Proof.
  intros Hh. unfold dispatch, trigger.
  change (handlers (set_dropdown d st)) with (handlers st).
  now rewrite Hh, registered_dropdown.
Qed.

Lemma static_set_value new s lo hi t :
  static s lo hi t -> static (set_value new s) lo hi t.
Proof. now unfold static. Qed.

Lemma good_set_slider st w s new :
  good load_data HGF_input_data st -> get_slider w st = Some s ->
  good load_data HGF_input_data (set_slider w (set_value new s) st).
Proof.
  intros [] Hs.
  destruct w; try discriminate Hs; injection Hs as <-;
    split; cbn; auto using static_set_value.
Qed.

Lemma dispatch_good ev st : good load_data HGF_input_data st -> good load_data HGF_input_data (snd (dispatch HGF_input_data ev st)).
Proof.
  intros Hg. destruct ev as [w new | attr d].
  - destruct (get_slider w st) as [s|] eqn:Hs.
    + destruct (good_layout _ _ _ Hg) as (plot & Hl & _).
      rewrite (dispatch_slider _ _ _ _ _ _ _ _ (good_handlers _ _ _ Hg) Hs Hl).
      pose proof (good_set_slider _ _ _ new Hg Hs) as Hg1.
      set (st1 := set_slider w (set_value new s) st) in *.
      destruct (refit HGF_input_data st1) as [r w'] eqn:Hfit.
      apply fit_hgf_inv in Hfit as (cfg & Hcfg & Hcalls & Hr).
      destruct Hg1 as [Hts Hh Hroots _ H1 H2 H3 H4 (fits & Hlog & Hfits)].
      assert (Hlog' : exists fits',
                 calls w' = Call_load_data "continuous" :: fits' /\
                 Forall (fit_call (timeseries st1)) fits').
      { exists (fits ++ [Call_HGF cfg (timeseries st1)]).
        rewrite Hcalls, Hlog. split; [reflexivity |].
        apply Forall_app. split; [exact Hfits |].
        repeat constructor. exists cfg. do 4 eexists. eauto. }
      destruct r as [plot'|e]; cbn [snd]; split; cbn; auto.
      * exists plot'. split; [reflexivity |].
        destruct Hr as (hgf & Hhgf & Hplot). exists cfg, hgf. eauto.
      * destruct (good_layout _ _ _ Hg) as (p & Hp & Hprod). exists p.
        split; [exact Hp |]. destruct w; try discriminate Hs; exact Hprod.
    + unfold dispatch. rewrite Hs. exact Hg.
  - rewrite dispatch_dropdown by apply Hg. cbn [snd].
    destruct Hg. split; cbn; auto.
Qed.

Lemma run_events_good evs : forall st, good load_data HGF_input_data st -> good load_data HGF_input_data (run_events HGF_input_data evs st).
Proof.
  induction evs as [|ev evs IH]; intros st Hg; [exact Hg |].
  cbn. apply IH, dispatch_good, Hg.
Qed.

Lemma reachable_good st0 evs :
  main load_data HGF_input_data = OK st0 ->
  good load_data HGF_input_data (run_events HGF_input_data evs st0).
Proof. intros H. apply run_events_good, main_good, H. Qed.

End Reachable.

(** ** The dashboard *)

Section Dashboard.

Variable load_data : string -> result (list Q).
Variable HGF_input_data : hgf_config -> list Q -> result HGF.

(** C1: in every state the application reaches, each of the four sliders
    has [on_change] as its one handler for ['value']; a change of the value
    of a slider makes one call into the library, the construction of a model
    from the constants and from the values the four sliders hold after the
    change, on the time series of the script; and when the library returns a
    model for them and [plot_trajectories] a column for that model, the
    layout keeps its first two children and gets that column as its third. *)
Theorem slider_change_replaces_third_child st0 evs w new :
  main load_data HGF_input_data = OK st0 ->
  w <> dropdown_w ->
  let st := run_events HGF_input_data evs st0 in
  exists s c0 c1 c2,
    get_slider w st = Some s /\
    registered w "value" (handlers st) = [on_change_cb] /\
    layout st = NColumn [c0; c1; c2] [] /\
    let st1 := set_slider w (set_value new s) st in
    value <$> get_slider w st1 = Some new /\
    exists cfg,
      fixed_config cfg (value (slider1 st1)) (value (slider2 st1))
        (value (slider3 st1)) (value (slider4 st1)) /\
      calls (outside (snd (dispatch HGF_input_data (SliderChange w new) st)))
      = calls (outside st) ++ [Call_HGF cfg (timeseries st)] /\
      forall hgf plot n',
        HGF_input_data cfg (timeseries st) = OK hgf ->
        plot_trajectories_default hgf (next_id (outside st)) = (OK plot, n') ->
        exists st',
          dispatch HGF_input_data (SliderChange w new) st = (OK tt, st') /\
          layout st' = NColumn [c0; c1; plot] [] /\
          slider1 st' = slider1 st1 /\ slider2 st' = slider2 st1 /\
          slider3 st' = slider3 st1 /\ slider4 st' = slider4 st1.
Proof.
  intros Hmain Hw st.
  pose proof (reachable_good _ _ _ evs Hmain) as Hg. fold st in Hg.
  destruct (get_slider w st) as [s|] eqn:Hs; [| destruct w; try discriminate Hs; congruence].
  destruct (good_layout _ _ _ Hg) as (c2 & Hl & _).
  exists s, app_title, widgets, c2.
  split; [reflexivity |].
  split; [rewrite (good_handlers _ _ _ Hg); now apply registered_slider |].
  split; [exact Hl |].
  intros st1. split; [destruct w; try congruence; reflexivity |].
  rewrite (dispatch_slider _ _ _ _ new _ _ _ _ (good_handlers _ _ _ Hg) Hs Hl).
  fold st1.
  destruct (refit HGF_input_data st1) as [r w'] eqn:Hfit.
  pose proof Hfit as Hinv. unfold refit in Hinv.
  apply fit_hgf_inv in Hinv as (cfg & Hcfg & Hcalls & Hr).
  change (outside st1) with (outside st) in Hcalls, Hr.
  change (timeseries st1) with (timeseries st) in Hcalls, Hr.
  exists cfg. split; [exact Hcfg |]. split.
  - destruct r; cbn [snd outside set_layout set_outside]; exact Hcalls.
  - intros hgf plot n' Hhgf Hplot. destruct r as [plot0|e].
    + destruct Hr as (hgf0 & Hhgf0 & Hplot0).
      rewrite Hhgf in Hhgf0. injection Hhgf0 as <-.
      rewrite Hplot in Hplot0. injection Hplot0 as <- _.
      eexists. split; [reflexivity |]. split_and!; reflexivity.
    + destruct Hr as [[Hr _] | (hgf0 & Hhgf0 & Hplot0)]; [congruence |].
      rewrite Hhgf in Hhgf0. injection Hhgf0 as <-.
      rewrite Hplot in Hplot0. discriminate Hplot0.
Qed.

(** C6: in every state the application reaches, the sliders titled
    [Omega 1] and [Omega 2] range over [-20, 5], those titled [Mu 1] and
    [Mu 2] over [-20, 20], all in steps of 0.1. *)
Theorem slider_ranges st0 evs :
  main load_data HGF_input_data = OK st0 ->
  let st := run_events HGF_input_data evs st0 in
  (slider_title (slider1 st) = "Omega 1" /\
   start (slider1 st) == -20 /\ end_ (slider1 st) == 5 /\
   step (slider1 st) == 1 # 10)%Q /\
  (slider_title (slider2 st) = "Omega 2" /\
   start (slider2 st) == -20 /\ end_ (slider2 st) == 5 /\
   step (slider2 st) == 1 # 10)%Q /\
  (slider_title (slider3 st) = "Mu 1" /\
   start (slider3 st) == -20 /\ end_ (slider3 st) == 20 /\
   step (slider3 st) == 1 # 10)%Q /\
  (slider_title (slider4 st) = "Mu 2" /\
   start (slider4 st) == -20 /\ end_ (slider4 st) == 20 /\
   step (slider4 st) == 1 # 10)%Q.
Proof.
  intros Hmain st.
  destruct (reachable_good _ _ _ evs Hmain)
    as [_ _ _ _ (A1 & B1 & C1 & D1) (A2 & B2 & C2 & D2)
          (A3 & B3 & C3 & D3) (A4 & B4 & C4 & D4) _].
  fold st in A1, B1, C1, D1, A2, B2, C2, D2, A3, B3, C3, D3, A4, B4, C4, D4.
  rewrite A1, B1, C1, D1, A2, B2, C2, D2, A3, B3, C3, D3, A4, B4, C4, D4.
  split_and!; reflexivity.
Qed.

(** C5: in every state the application reaches, the document has one root,
    the layout: a column of the title, of the two rows of two sliders, and
    of a column of charts that [plot_trajectories] produced for a model the
    library returned: one figure per node, then the figure of the global
    surprise, titled with its value rounded to two digits, then the strip
    that selects the time range. *)
Theorem document_tree_shape st0 evs :
  main load_data HGF_input_data = OK st0 ->
  let st := run_events HGF_input_data evs st0 in
  exists hgf figs sp select,
    document_tree st =
      [NColumn
         [NDiv div_text 900 60;
          NColumn [NRow [NWidget slider1_w; NWidget slider2_w];
                   NRow [NWidget slider3_w; NWidget slider4_w]] [];
          NColumn (NFigure <$> (figs ++ [sp; select])) column_kwargs]
         []] /\
    (exists cfg, HGF_input_data cfg (timeseries st) = OK hgf) /\
    length figs = n_nodes hgf /\
    (forall i, (1 <= i <= n_nodes hgf)%nat ->
       exists f, figs !! (n_nodes hgf - i)%nat = Some f /\
                 title f = Str ("Node " +:+ pretty i)) /\
    (exists s, surprise hgf = OK s /\
               title sp = Fmt "Global surprise: " (Round (Num s) 2)) /\
    title select = Str "Select the time range" /\
    (exists tool, tools select = [tool] /\ rt_x_range tool = x_range sp).
Proof.
  intros Hmain st.
  pose proof (reachable_good _ _ _ evs Hmain) as Hg. fold st in Hg.
  destruct (good_layout _ _ _ Hg) as (plot & Hl & cfg & hgf & n & n' & Hhgf & Hplot).
  apply plot_trajectories_OK in Hplot
    as (df & figs & sp & rest & Hdf & -> & Hlen & _ & Hall & Hsp & sel & p & m & -> & _ & Hsel & _).
  exists hgf, figs, sp, sel. rewrite (n_nodes_count _ _ Hdf).
  split_and!; eauto.
  - unfold document_tree. rewrite (good_roots _ _ _ Hg). cbn. now rewrite Hl.
  - intros i Hi.
    destruct (lookup_lt_is_Some_2 figs (count_nodes df - i)) as [f Hf]; [lia |].
    exists f. split; [exact Hf |]. apply Hall in Hf.
    replace (count_nodes df - (count_nodes df - i))%nat with i in Hf by lia.
    apply Hf.
  - destruct Hsp as ((s & Hs & Ht) & _). eauto.
  - apply Hsel.
  - exists (selector_tool (time_range n)). split; [apply Hsel |].
    destruct Hsp as (_ & -> & _). reflexivity.
Qed.

Lemma fixed_config_unique cfg cfg' omega1 omega2 mu1 mu2 :
  fixed_config cfg omega1 omega2 mu1 mu2 ->
  fixed_config cfg' omega1 omega2 mu1 mu2 -> cfg = cfg'.
Proof.
  unfold fixed_config. destruct cfg, cfg'. cbn.
  intros (-> & -> & -> & -> & -> & -> & -> & ->)
         (-> & -> & -> & -> & -> & -> & -> & ->). reflexivity.
Qed.

Lemma refit_raises st e :
  fst (refit HGF_input_data st) = Raise e <-> fit_raises HGF_input_data st e.
Proof.
  unfold refit, fit_raises.
  destruct (fit_hgf _ _ _ _ _ _ _) as [r w'] eqn:Hfit.
  apply fit_hgf_inv in Hfit as (cfg & Hcfg & _ & Hr). cbn [fst]. split.
  - intros ->. exists cfg. split; [exact Hcfg |].
    destruct Hr as [[Hr _] | (hgf & Hhgf & Hp)]; [now left | right].
    exists hgf. split; [exact Hhgf |]. now rewrite Hp.
  - intros (cfg' & Hcfg' & Hcause).
    rewrite <- (fixed_config_unique _ _ _ _ _ _ Hcfg Hcfg') in Hcause.
    destruct r as [plot|e'].
    + destruct Hr as (hgf & Hhgf & Hp).
      destruct Hcause as [Hc | (hgf' & Hhgf' & Hc)]; [congruence |].
      rewrite Hhgf in Hhgf'. injection Hhgf' as <-. rewrite Hp in Hc.
      discriminate Hc.
    + destruct Hr as [[Hr _] | (hgf & Hhgf & Hp)];
        destruct Hcause as [Hc | (hgf' & Hhgf' & Hc)]; try congruence.
      rewrite Hhgf in Hhgf'. injection Hhgf' as <-. rewrite Hp in Hc.
      exact Hc.
Qed.

(** C8: in every state the application reaches, a change of a slider ends
    with exception [e] exactly when the construction of the model or the
    plotting raises [e] on the values the sliders hold after the change: the
    exception reaches the host as it is.  The layout and the document are
    then as they were, and they change only when the event ends without an
    exception, by the column of the successful fit.  Inside
    [plot_trajectories], an exception of the model's table comes out as it
    is, and so does one of its global surprise out of the figure made for
    it. *)
Theorem exceptions_reach_the_host st0 evs w new :
  main load_data HGF_input_data = OK st0 ->
  w <> dropdown_w ->
  let st := run_events HGF_input_data evs st0 in
  exists s,
    get_slider w st = Some s /\
    let st1 := set_slider w (set_value new s) st in
    (forall e,
       fit_raises HGF_input_data st1 e <-> fst (dispatch HGF_input_data (SliderChange w new) st) = Raise e) /\
    (forall e,
       fst (dispatch HGF_input_data (SliderChange w new) st) = Raise e ->
       layout (snd (dispatch HGF_input_data (SliderChange w new) st)) = layout st /\
       document_tree (snd (dispatch HGF_input_data (SliderChange w new) st))
       = document_tree st) /\
    (layout (snd (dispatch HGF_input_data (SliderChange w new) st)) <> layout st ->
     exists plot,
       fst (refit HGF_input_data st1) = OK plot /\
       fst (dispatch HGF_input_data (SliderChange w new) st) = OK tt /\
       layout (snd (dispatch HGF_input_data (SliderChange w new) st))
       = NColumn [app_title; widgets; plot] []) /\
    (forall hgf ci with_surprise figsize slider n e,
       to_pandas hgf = Raise e ->
       plot_trajectories hgf ci with_surprise figsize slider n = (Raise e, n)) /\
    (forall hgf df figsize lp n e,
       surprise hgf = Raise e ->
       global_surprise hgf df figsize lp n = (Raise e, n)).
Proof.
  intros Hmain Hw st.
  pose proof (reachable_good _ _ _ evs Hmain) as Hg. fold st in Hg.
  destruct (get_slider w st) as [s|] eqn:Hs; [| destruct w; try discriminate Hs; congruence].
  destruct (good_layout _ _ _ Hg) as (c2 & Hl & _).
  exists s. split; [reflexivity |]. intros st1.
  rewrite (dispatch_slider _ _ _ _ new _ _ _ _ (good_handlers _ _ _ Hg) Hs Hl).
  fold st1. split_and!.
  - intros e. rewrite <- refit_raises.
    destruct (refit HGF_input_data st1) as [[plot|e'] w']; cbn [fst]; split; congruence.
  - intros e. destruct (refit HGF_input_data st1) as [[plot|e'] w']; cbn [fst snd];
      [discriminate |]. intros _. split; [reflexivity |].
    unfold document_tree. reflexivity.
  - destruct (refit HGF_input_data st1) as [[plot|e'] w']; cbn [fst snd].
    + intros _. exists plot. split_and!; reflexivity.
    + intros H. exfalso. apply H. reflexivity.
  - intros hgf ci ws figsize slider n e He. unfold plot_trajectories.
    rewrite He. reflexivity.
  - intros hgf df figsize lp n e He. unfold global_surprise.
    rewrite He. reflexivity.
Qed.

Lemma set_dropdown_id st : set_dropdown (dropdown st) st = st.
Proof. now destruct st. Qed.

Lemma set_dropdown_twice d d' st :
  set_dropdown d (set_dropdown d' st) = set_dropdown d st.
Proof. reflexivity. Qed.

Lemma on_change_set_dropdown attrname old new d st :
  on_change HGF_input_data attrname old new (set_dropdown d st)
  = (fst (on_change HGF_input_data attrname old new st),
     set_dropdown d (snd (on_change HGF_input_data attrname old new st))).
Proof.
  rewrite !on_change_unfold.
  change (refit HGF_input_data (set_dropdown d st)) with (refit HGF_input_data st).
  destruct (refit HGF_input_data st) as [[plot|e] w']; [| reflexivity].
  unfold layout_setitem. cbn [layout set_outside set_dropdown].
  destruct (layout st) as [| | | |children kw]; try reflexivity.
  case_decide; reflexivity.
Qed.

Lemma dispatch_set_dropdown w new d st :
  good load_data HGF_input_data st ->
  snd (dispatch HGF_input_data (SliderChange w new) (set_dropdown d st))
  = set_dropdown d (snd (dispatch HGF_input_data (SliderChange w new) st)) /\
  fst (dispatch HGF_input_data (SliderChange w new) (set_dropdown d st))
  = fst (dispatch HGF_input_data (SliderChange w new) st).
Proof.
  intros Hg. unfold dispatch.
  change (get_slider w (set_dropdown d st)) with (get_slider w st).
  destruct (get_slider w st) as [s|] eqn:Hs; [| split; reflexivity].
  unfold trigger.
  change (handlers (set_slider w (set_value new s) (set_dropdown d st)))
    with (handlers st).
  change (handlers (set_slider w (set_value new s) st)) with (handlers st).
  rewrite (good_handlers _ _ _ Hg), registered_slider
    by (intros ->; discriminate Hs).
  rewrite !run_one_callback.
  change (set_slider w (set_value new s) (set_dropdown d st))
    with (set_dropdown d (set_slider w (set_value new s) st)).
  rewrite on_change_set_dropdown. split; reflexivity.
Qed.

Lemma run_events_set_dropdown evs :
  forall st d,
    good load_data HGF_input_data st ->
    exists d',
      run_events HGF_input_data evs (set_dropdown d st)
      = set_dropdown d' (run_events HGF_input_data (slider_events evs) st).
Proof.
  induction evs as [|[w new | attr d2] evs IH]; intros st d Hg.
  - exists d. reflexivity.
  - cbn [run_events fold_left slider_events List.filter].
    destruct (dispatch_set_dropdown w new d st Hg) as [-> _].
    apply IH, dispatch_good, Hg.
  - cbn [run_events fold_left slider_events List.filter].
    rewrite dispatch_dropdown by apply Hg. cbn [snd].
    rewrite set_dropdown_twice. apply IH, Hg.
Qed.

(** C4: in every state the application reaches no handler is registered on
    the dropdown, so a change of the dropdown changes the dropdown and
    nothing else; every model is built with [model_type="continuous"]; and
    two runs with the same changes of the sliders, whatever happens to the
    dropdown in each, end with the same layout, the same sliders and the
    same calls into the library. *)
Theorem dropdown_is_not_wired st0 evs :
  main load_data HGF_input_data = OK st0 ->
  let st := run_events HGF_input_data evs st0 in
  (forall attr, registered dropdown_w attr (handlers st) = []) /\
  (forall attr d,
     dispatch HGF_input_data (DropdownChange attr d) st = (OK tt, set_dropdown d st)) /\
  Forall (fun c => forall cfg ts, c = Call_HGF cfg ts ->
                                  cfg_model_type cfg = "continuous")
    (calls (outside st)) /\
  forall evs',
    slider_events evs' = slider_events evs ->
    let st' := run_events HGF_input_data evs' st0 in
    layout st' = layout st /\
    document_tree st' = document_tree st /\
    outside st' = outside st /\
    slider1 st' = slider1 st /\ slider2 st' = slider2 st /\
    slider3 st' = slider3 st /\ slider4 st' = slider4 st.
Proof.
  intros Hmain st.
  pose proof (reachable_good _ _ _ evs Hmain) as Hg. fold st in Hg.
  split_and!.
  - intros attr. rewrite (good_handlers _ _ _ Hg). apply registered_dropdown.
  - intros attr d. apply dispatch_dropdown, Hg.
  - destruct (good_calls _ _ _ Hg) as (fits & -> & Hfits).
    constructor; [discriminate |].
    eapply Forall_impl; [exact Hfits |].
    intros c (cfg & o1 & o2 & m1 & m2 & -> & Hcfg) cfg' ts' [= <- <-].
    apply Hcfg.
  - intros evs' Hevs st'.
    pose proof (main_good _ _ _ Hmain) as Hg0.
    destruct (run_events_set_dropdown evs st0 (dropdown st0) Hg0) as (d & Hd).
    destruct (run_events_set_dropdown evs' st0 (dropdown st0) Hg0) as (d' & Hd').
    rewrite set_dropdown_id in Hd, Hd'. rewrite Hevs in Hd'.
    subst st st'. rewrite Hd, Hd'.
    pose proof (good_roots _ _ _ (reachable_good _ _ _ (slider_events evs) Hmain)) as Hr.
    unfold document_tree. cbn. split_and!; reflexivity.
Qed.

End Dashboard.

(** ** The dashboard on the stand-in library *)

Lemma slider_change_replaces_third_child_witness :
  match main demo_load_data demo_HGF with
  | Raise _ => False
  | OK st0 =>
      exists c0 c1 c2 cfg plot st',
        layout st0 = NColumn [c0; c1; c2] [] /\
        omega cfg = {[ "1" := (-4)%Q; "2" := (-4)%Q ]} /\
        initial_mu cfg = {[ "1" := 2.0%Q; "2" := 0.0%Q ]} /\
        calls (outside st')
        = calls (outside st0) ++ [Call_HGF cfg (timeseries st0)] /\
        fst (plot_trajectories_default (demo_hgf "continuous")
               (next_id (outside st0))) = OK plot /\
        dispatch demo_HGF (SliderChange slider3_w 2.0%Q) st0 = (OK tt, st') /\
        layout st' = NColumn [c0; c1; plot] []
  end.
Proof.
  destruct (main demo_load_data demo_HGF) as [st0|e] eqn:Hmain;
    [| vm_compute in Hmain; discriminate Hmain].
  destruct (main_values _ _ _ Hmain) as (V1 & V2 & V3 & V4).
  destruct (slider_change_replaces_third_child demo_load_data demo_HGF st0 []
              slider3_w 2.0%Q Hmain ltac:(discriminate))
    as (s & c0 & c1 & c2 & Hs & _ & Hl & _ & cfg & Hcfg & Hcalls & Hfit).
  injection Hs as <-.
  cbn [run_events fold_left set_slider slider1 slider2 slider3 slider4
         set_value value] in Hcfg, Hcalls, Hfit.
  rewrite V1, V2, V4 in Hcfg.
  destruct Hcfg as (_ & Hmt & _ & _ & _ & _ & Ho & Hmu).
  destruct (plot_trajectories_total (demo_hgf "continuous") true true 200 true
              (next_id (outside st0)) eq_refl)
    as (plot & n' & Hplot); [discriminate | lia |].
  assert (Hhgf : demo_HGF cfg (timeseries st0) = OK (demo_hgf "continuous")).
  { unfold demo_HGF. rewrite Ho, Hmt, lookup_insert_eq. reflexivity. }
  destruct (Hfit _ plot n' Hhgf Hplot) as (st' & Hd & Hl' & _).
  exists c0, c1, c2, cfg, plot, st'. split_and!; auto.
  - rewrite Hd in Hcalls. exact Hcalls.
  - unfold plot_trajectories_default. now rewrite Hplot.
Defined.

Lemma slider_ranges_witness :
  match main demo_load_data demo_HGF with
  | Raise _ => False
  | OK st0 =>
      let st := run_events demo_HGF [SliderChange slider1_w (-3)%Q] st0 in
      (start (slider1 st) == -20 /\ end_ (slider1 st) == 5)%Q /\
      (start (slider3 st) == -20 /\ end_ (slider3 st) == 20)%Q
  end.
Proof.
  destruct (main demo_load_data demo_HGF) as [st0|e] eqn:Hmain;
    [| vm_compute in Hmain; discriminate Hmain].
  destruct (slider_ranges demo_load_data demo_HGF st0
              [SliderChange slider1_w (-3)%Q] Hmain)
    as ((_ & A1 & B1 & _) & _ & (_ & A3 & B3 & _) & _).
  intros st. split; split; assumption.
Defined.

Lemma document_tree_shape_witness :
  match main demo_load_data demo_HGF with
  | Raise _ => False
  | OK st0 =>
      exists figs sp select,
        document_tree (run_events demo_HGF [SliderChange slider4_w 1.0%Q] st0) =
          [NColumn [app_title; widgets;
                    NColumn (NFigure <$> (figs ++ [sp; select])) column_kwargs]
             []]
  end.
Proof.
  destruct (main demo_load_data demo_HGF) as [st0|e] eqn:Hmain;
    [| vm_compute in Hmain; discriminate Hmain].
  destruct (document_tree_shape demo_load_data demo_HGF st0
              [SliderChange slider4_w 1.0%Q] Hmain)
    as (hgf & figs & sp & select & Htree & _).
  exists figs, sp, select. exact Htree.
Defined.

Lemma exceptions_reach_the_host_witness :
  match main demo_load_data demo_HGF with
  | Raise _ => False
  | OK st0 =>
      fst (dispatch demo_HGF (SliderChange slider1_w 1.0%Q) st0)
      = Raise (LibraryError "invalid parameters") /\
      layout (snd (dispatch demo_HGF (SliderChange slider1_w 1.0%Q) st0))
      = layout st0
  end.
Proof.
  destruct (main demo_load_data demo_HGF) as [st0|e] eqn:Hmain;
    [| vm_compute in Hmain; discriminate Hmain].
  destruct (exceptions_reach_the_host demo_load_data demo_HGF st0 []
              slider1_w 1.0%Q Hmain ltac:(discriminate))
    as (s & Hs & Hiff & Hkeep & _).
  assert (Hraise : fst (dispatch demo_HGF (SliderChange slider1_w 1.0%Q) st0)
                   = Raise (LibraryError "invalid parameters")).
  { apply Hiff.
    exists {| n_levels := 2;
              cfg_model_type := "continuous";
              initial_mu := {[ "1" := value (slider3 st0); "2" := value (slider4 st0) ]};
              initial_pi := {[ "1" := 1e2%Q; "2" := 1e1%Q ]};
              omega := {[ "1" := 1.0%Q; "2" := value (slider2 st0) ]};
              rho := {[ "1" := 0.0%Q; "2" := 0.0%Q ]};
              kappas := {[ "1" := 1.0%Q ]};
              verbose := false |}.
    split; [unfold fixed_config; split_and!; reflexivity |].
    left. vm_compute. reflexivity. }
  split; [exact Hraise | exact (proj1 (Hkeep _ Hraise))].
Defined.

Lemma dropdown_is_not_wired_witness :
  match main demo_load_data demo_HGF with
  | Raise _ => False
  | OK st0 =>
      let d := {| label := "Model type"; menu := [("Binary", "binary")] |} in
      let st := run_events demo_HGF [SliderChange slider3_w 2.0%Q] st0 in
      let st' := run_events demo_HGF
                   [DropdownChange "label" d; SliderChange slider3_w 2.0%Q] st0 in
      layout st' = layout st /\ outside st' = outside st
  end.
Proof.
  destruct (main demo_load_data demo_HGF) as [st0|e] eqn:Hmain;
    [| vm_compute in Hmain; discriminate Hmain].
  destruct (dropdown_is_not_wired demo_load_data demo_HGF st0
              [SliderChange slider3_w 2.0%Q] Hmain) as (_ & _ & _ & Hsame).
  intros d st st'.
  destruct (Hsame [DropdownChange "label" d; SliderChange slider3_w 2.0%Q] eq_refl)
    as (Hl & _ & Ho & _).
  split; [exact Hl | exact Ho].
Defined.

(** * Further properties of the plotting code *)

(** ** What a run reads *)

Lemma node_x_range_reads df cols lp n xa n' :
  node_x_range df cols lp n = (OK xa, n') ->
  cols = [] -> "time" ∈ columns df /\ nrows df <> 0%nat.
Proof.
  unfold node_x_range. intros H ->. cbn [length Nat.eqb negb] in H.
  inv_OK. auto.
Qed.

Lemma plot_input_reads hgf df i f n f' n' :
  plot_input hgf df i f n = (OK f', n') ->
  i = 1%nat ->
  String.eqb (model_type hgf) "continuous" = true ->
  "observation" ∈ columns df.
Proof.
  unfold plot_input. intros H -> Hmt. cbn [Nat.eqb] in H.
  rewrite Hmt in H. inv_OK. assumption.
Qed.

Lemma plot_mean_reads df mu color f n f' n' :
  plot_mean df mu color f n = (OK f', n') -> "time" ∈ columns df.
Proof. unfold plot_mean. intros H. inv_OK. assumption. Qed.

Lemma plot_surprise_reads df i f n f' n' :
  plot_surprise df true i f n = (OK f', n') ->
  node_col i "surprise" ∈ columns df.
Proof. unfold plot_surprise. intros H. inv_OK. assumption. Qed.

Lemma node_figure_reads hgf df ci with_surprise figsize i color cols lp n f n' :
  node_figure hgf df ci with_surprise figsize i color cols lp n = (OK f, n') ->
  node_readable df with_surprise i = true /\
  "time" ∈ columns df /\
  (cols = [] -> nrows df <> 0%nat) /\
  (i = 1%nat ->
   String.eqb (model_type hgf) "continuous" = true ->
   "observation" ∈ columns df).
Proof.
  unfold node_figure. intros H.
  apply bind_OK in H as (mu & n1 & Hmu & H).
  apply df_getitem_OK in Hmu as (-> & -> & Hmu).
  apply bind_OK in H as (pi & n2 & Hpi & H).
  apply df_getitem_OK in Hpi as (-> & -> & Hpi).
  apply bind_OK in H as (xa & n3 & Hx & H).
  apply bind_OK in H as (f0 & n4 & _ & H).
  apply bind_OK in H as (f1 & n5 & H1 & H).
  apply bind_OK in H as (f2 & n6 & H2 & H).
  apply bind_OK in H as (f3 & n7 & _ & H).
  split_and!.
  - unfold node_readable. rewrite !bool_decide_eq_true_2 by assumption.
    destruct with_surprise; [| reflexivity].
    apply plot_surprise_reads in H. now rewrite bool_decide_eq_true_2.
  - exact (plot_mean_reads _ _ _ _ _ _ _ H2).
  - intros Hc. exact (proj2 (node_x_range_reads _ _ _ _ _ _ Hx Hc)).
  - intros Hi Hmt. exact (plot_input_reads _ _ _ _ _ _ _ H1 Hi Hmt).
Qed.

Lemma node_loop_reads hgf df ci with_surprise figsize i :
  forall drawn cols lp n r n',
    node_loop hgf df ci with_surprise figsize i drawn cols lp n = (OK r, n') ->
    (forall j, (1 <= j <= i)%nat -> node_readable df with_surprise j = true) /\
    (i <> 0%nat ->
     "time" ∈ columns df /\
     (cols = [] -> nrows df <> 0%nat) /\
     (String.eqb (model_type hgf) "continuous" = true ->
      "observation" ∈ columns df)).
Proof.
  induction i as [|k IH]; intros drawn cols lp n r n' H.
  - split; [intros j Hj; lia | congruence].
  - cbn [node_loop] in H.
    apply bind_OK in H as (fig & n1 & Hfig & H). cbv beta in H.
    apply node_figure_reads in Hfig as (Hnode & Htime & Hrows & Hobs).
    apply IH in H as (Hall & Hrest).
    split.
    + intros j Hj. destruct (decide (j = S k)) as [-> | Hne]; [exact Hnode |].
      apply Hall. lia.
    + intros _. split_and!; [exact Htime | exact Hrows |].
      intros Hmt. destruct k as [|k']; [now apply Hobs |].
      now apply Hrest.
Qed.

Lemma global_surprise_reads hgf df figsize lp n f n' :
  global_surprise hgf df figsize lp n = (OK f, n') ->
  (exists s, surprise hgf = OK s) /\ "surprise" ∈ columns df.
Proof.
  unfold global_surprise, new_figure, range_of_arg. intros H. inv_OK. eauto.
Qed.

Lemma range_selector_reads df figsize lp sp n f n' :
  range_selector df figsize lp sp n = (OK f, n') -> "observation" ∈ columns df.
Proof.
  unfold range_selector, new_figure, range_of_arg. intros H. inv_OK. assumption.
Qed.

(** ** What a run needs *)

Section Needs.

Variable hgf : HGF.
Variable df : DataFrame.
Variables ci with_surprise : bool.
Variable figsize : Z.
Hypothesis Htime : "time" ∈ columns df.
Hypothesis Hsize : (0 <= figsize)%Z.

Lemma plot_input_runs i f n :
  (i = 1%nat ->
   String.eqb (model_type hgf) "continuous" = true ->
   "observation" ∈ columns df) ->
  (i = 1%nat -> model_type hgf <> "binary") ->
  exists f' n', plot_input hgf df i f n = (OK f', n').
Proof.
  unfold plot_input. intros Hobs Hbin.
  destruct (i =? 1)%nat eqn:Hi; [apply Nat.eqb_eq in Hi |]; [| unfold ret; eauto].
  destruct (String.eqb _ "continuous").
  - specialize (Hobs Hi eq_refl). run_reads. rewrite circle_continuous.
    unfold ret. eauto.
  - destruct (String.eqb_spec (model_type hgf) "binary"); [now apply Hbin in Hi |].
    unfold ret. eauto.
Qed.

Lemma plot_mean_runs mu color f n :
  exists f' n', plot_mean df mu color f n = (OK f', n').
Proof. unfold plot_mean. run_reads. eauto. Qed.

Lemma plot_sd_runs i pi color f n :
  node_col i "muhat" ∈ columns df ->
  exists f' n', plot_sd hgf df ci i pi color f n = (OK f', n').
Proof.
  intros Hmu. unfold plot_sd, alloc_range.
  destruct ci; [destruct (negb _) |]; run_reads; eauto.
Qed.

Lemma plot_surprise_runs i f n :
  (with_surprise = true -> node_col i "surprise" ∈ columns df) ->
  exists f' n', plot_surprise df with_surprise i f n = (OK f', n').
Proof.
  intros Hs. unfold plot_surprise, alloc_range.
  destruct with_surprise; [specialize (Hs eq_refl) |]; run_reads; eauto.
Qed.

Lemma node_x_range_runs cols lp n :
  (cols = [] -> nrows df <> 0%nat) ->
  (cols <> [] -> is_Some lp) ->
  exists xa n', node_x_range df cols lp n = (OK xa, n').
Proof.
  unfold node_x_range. intros Hrows Hlp. destruct cols as [|c cols].
  - specialize (Hrows eq_refl). cbn [length Nat.eqb negb]. run_reads. eauto.
  - destruct Hlp as [p ->]; [discriminate |].
    cbn [length Nat.eqb negb read_local]. run_reads. eauto.
Qed.

Lemma node_readable_inv i :
  node_readable df with_surprise i = true ->
  node_col i "muhat" ∈ columns df /\ node_col i "pihat" ∈ columns df /\
  (with_surprise = true -> node_col i "surprise" ∈ columns df).
Proof.
  unfold node_readable. rewrite !andb_true_iff, !bool_decide_eq_true.
  intros [[Hmu Hpi] Hs]. split_and!; auto.
  intros ->. cbn in Hs. now apply bool_decide_eq_true in Hs.
Qed.

Lemma node_figure_runs i color cols lp n :
  node_readable df with_surprise i = true ->
  (cols = [] -> nrows df <> 0%nat) ->
  (cols <> [] -> is_Some lp) ->
  (i = 1%nat ->
   String.eqb (model_type hgf) "continuous" = true ->
   "observation" ∈ columns df) ->
  (i = 1%nat -> model_type hgf <> "binary") ->
  exists f n', node_figure hgf df ci with_surprise figsize i color cols lp n
               = (OK f, n').
Proof.
  intros (Hmu & Hpi & Hs)%node_readable_inv Hrows Hlp Hobs Hbin.
  unfold node_figure.
  rewrite (bind_step_OK _ _ _ _ _ (df_getitem_total _ _ n Hmu)).
  rewrite (bind_step_OK _ _ _ _ _ (df_getitem_total _ _ n Hpi)).
  destruct (node_x_range_runs cols lp n Hrows Hlp) as (xa & n1 & H1).
  rewrite (bind_step_OK _ _ _ _ _ H1).
  match goal with
  | |- context [new_figure ?t ?kw ?xr ?yr] =>
      destruct (new_figure_total t kw xr yr n1) as (f0 & n2 & H2);
        [rewrite height_ok_node; now apply Z.leb_le |]
  end.
  rewrite (bind_step_OK _ _ _ _ _ H2).
  edestruct (plot_input_runs i) as (f1 & n3 & H3); [exact Hobs | exact Hbin |].
  rewrite (bind_step_OK _ _ _ _ _ H3).
  edestruct plot_mean_runs as (f2 & n4 & H4).
  rewrite (bind_step_OK _ _ _ _ _ H4).
  edestruct (plot_sd_runs i) as (f3 & n5 & H5); [exact Hmu |].
  rewrite (bind_step_OK _ _ _ _ _ H5).
  apply plot_surprise_runs, Hs.
Qed.

Lemma node_loop_runs i :
  forall drawn cols lp n,
    (forall j, (1 <= j <= i)%nat -> node_readable df with_surprise j = true) ->
    (cols = [] -> nrows df <> 0%nat) ->
    (cols <> [] -> is_Some lp) ->
    (String.eqb (model_type hgf) "continuous" = true ->
     "observation" ∈ columns df) ->
    model_type hgf <> "binary" ->
    exists r n', node_loop hgf df ci with_surprise figsize i drawn cols lp n
                 = (OK r, n').
Proof.
  induction i as [|k IH]; intros drawn cols lp n Hall Hrows Hlp Hobs Hbin.
  - cbn. unfold ret. eauto.
  - cbn [node_loop].
    edestruct (node_figure_runs (S k)) as (f & n1 & H1);
      [apply Hall; lia | exact Hrows | exact Hlp | intros _; exact Hobs
      | intros _; exact Hbin |].
    rewrite (bind_step_OK _ _ _ _ _ H1).
    apply IH; [intros j Hj; apply Hall; lia | | eauto | exact Hobs | exact Hbin].
    intros Hc. now destruct cols.
Qed.

End Needs.

Lemma global_surprise_runs hgf df figsize s p n :
  surprise hgf = OK s -> (0 <= figsize)%Z ->
  "time" ∈ columns df -> "surprise" ∈ columns df ->
  exists f n', global_surprise hgf df figsize (Some p) n = (OK f, n').
Proof.
  intros Hs Hsize Htime Hsur.
  unfold global_surprise, lift, read_local, new_figure, check_height.
  rewrite height_ok_surprise, (proj2 (Z.leb_le _ _) Hsize).
  unfold range_of_arg, alloc_range. rewrite Hs. run_reads. eauto.
Qed.

Lemma range_selector_runs df figsize p sp n :
  (0 <= figsize)%Z ->
  "time" ∈ columns df -> "observation" ∈ columns df ->
  exists f n', range_selector df figsize (Some p) sp n = (OK f, n').
Proof.
  intros Hsize Htime Hobs.
  unfold range_selector, read_local, new_figure, check_height.
  rewrite height_ok_selector, (selector_height_nonneg _ Hsize).
  unfold range_of_arg, alloc_range. run_reads. eauto.
Qed.

Lemma plottable_exact hgf ci with_surprise figsize slider n :
  (exists nd n',
     plot_trajectories hgf ci with_surprise figsize slider n = (OK nd, n'))
  <-> plottable hgf with_surprise figsize slider = true.
Proof.
  split.
  - intros (nd & n' & Hrun).
    pose proof (plot_trajectories_OK _ _ _ _ _ _ _ _ Hrun)
      as (df0 & _ & _ & _ & Hdf0 & _ & _ & Hn & _).
    pose proof (plot_trajectories_accepts _ _ _ _ _ _ _ _ Hrun) as [Hsize Hbin].
    unfold plot_trajectories in Hrun.
    apply bind_OK in Hrun as (df & n0 & Hdf & H). cbv beta zeta in H.
    apply lift_OK in Hdf as [Hdf ->].
    rewrite Hdf in Hdf0. injection Hdf0 as <-.
    apply bind_OK in H as (loop & n1 & Hloop & H). cbv beta zeta in H.
    apply node_loop_reads in Hloop as (Hall & Hrest).
    destruct (Hrest Hn) as (Htime & Hrows & Hobs).
    apply bind_OK in H as (sp & n2 & Hsp & H). cbv beta zeta in H.
    apply global_surprise_reads in Hsp as ((s & Hs) & Hsur).
    apply bind_OK in H as (cols & n3 & Hcols & _).
    unfold plottable, needs_observation. rewrite Hdf, Hs.
    rewrite !andb_true_iff, !negb_true_iff, !Nat.eqb_neq, !bool_decide_eq_true,
      forallb_forall, String.eqb_neq, Z.leb_le.
    split_and!; auto.
    + destruct slider.
      * apply bind_OK in Hcols as (sel & n4 & Hsel & _).
        apply range_selector_reads in Hsel.
        cbn. now apply bool_decide_eq_true.
      * cbn [orb]. destruct (String.eqb _ _) eqn:Hmt; [| reflexivity].
        cbn. apply bool_decide_eq_true. now apply Hobs.
    + intros i Hi%in_seq. apply Hall. lia.
  - unfold plottable, needs_observation.
    destruct (to_pandas hgf) as [df|] eqn:Hdf; [| discriminate].
    destruct (surprise hgf) as [s|] eqn:Hs; [| discriminate].
    rewrite !andb_true_iff, !negb_true_iff, !Nat.eqb_neq, !bool_decide_eq_true,
      forallb_forall, String.eqb_neq, Z.leb_le.
    intros [[[[[[[Hbin Hsize] Htime] Hsur] Hrows] Hn] Hobs] Hall].
    unfold plot_trajectories. rewrite Hdf.
    unfold lift at 1, bind at 1. cbv beta iota zeta.
    edestruct (node_loop_runs hgf df ci with_surprise figsize Htime Hsize
                 (count_nodes df) 0%nat [] None n) as ([cols lp] & n1 & Hloop).
    { intros j Hj. apply Hall, in_seq. lia. }
    { auto. }
    { congruence. }
    { intros Hmt. apply orb_true_iff in Hobs as [Hobs | Hobs];
        [| now apply bool_decide_eq_true in Hobs].
      apply negb_true_iff in Hobs.
      apply orb_false_iff in Hobs as [_ Hobs]. congruence. }
    { exact Hbin. }
    rewrite (bind_step_OK _ _ _ _ _ Hloop). cbn [fst snd].
    pose proof Hloop as Hloop'.
    eapply (node_loop_OK _ _ _ _ _ _ _ _ _ _ (time_range n)) in Hloop'
      as (_ & figs & -> & _ & _ & Hlast); [| reflexivity].
    destruct (count_nodes df) as [|k]; [congruence |].
    destruct Hlast as (p & -> & _).
    edestruct (global_surprise_runs hgf df figsize s p n1 Hs Hsize Htime Hsur)
      as (sp & n2 & Hsp).
    rewrite (bind_step_OK _ _ _ _ _ Hsp).
    destruct slider.
    + cbn in Hobs. apply bool_decide_eq_true in Hobs.
      edestruct (range_selector_runs df figsize p sp n2 Hsize Htime Hobs)
        as (sel & n3 & Hsel).
      unfold bind at 1. rewrite (bind_step_OK _ _ _ _ _ Hsel).
      unfold ret. eauto.
    + unfold bind, ret. eauto.
Qed.


(** ** The first reads of a run *)

Lemma bind_raises {St A B} (m : ST St A) (k : A -> ST St B) s e s1 :
  m s = (Raise e, s1) -> bind m k s = (Raise e, s1).
Proof. unfold bind. now intros ->. Qed.

Lemma df_getitem_missing df name n :
  name ∉ columns df -> df_getitem df name n = (Raise (KeyError name), n).
Proof. intros H. unfold df_getitem. now rewrite bool_decide_eq_false_2. Qed.

Lemma df_getattr_missing df name n :
  name ∉ columns df -> df_getattr df name n = (Raise (AttributeError name), n).
Proof. intros H. unfold df_getattr. now rewrite bool_decide_eq_false_2. Qed.

Lemma iloc_empty df s i n :
  nrows df = 0%nat -> iloc df s i n = (Raise IndexError, n).
Proof. intros H. unfold iloc. now rewrite decide_True. Qed.

(** The run up to the first iteration of the loop. *)
Lemma plot_trajectories_first hgf ci with_surprise figsize slider n df k e n1 :
  to_pandas hgf = OK df ->
  count_nodes df = S k ->
  node_figure hgf df ci with_surprise figsize (S k) (next_color 0) [] None n
  = (Raise e, n1) ->
  plot_trajectories hgf ci with_surprise figsize slider n = (Raise e, n1).
Proof.
  intros Hdf Hn Hfig. unfold plot_trajectories. rewrite Hdf.
  unfold lift at 1, bind at 1. cbv beta iota zeta. rewrite Hn.
  apply bind_raises. cbn [node_loop]. now apply bind_raises.
Qed.

(** X2: the number of nodes is the number of columns whose name contains
    [_muhat], whatever the rest of the name, and the loop starts at the node
    of that number: when the table has no [node_<n>_muhat] for that number
    [n], the run ends with the [KeyError] of that name; when it has it but
    not [node_<n>_pihat], with the [KeyError] of this one, also when [ci] is
    unset and no band is drawn.  No identity has been taken. *)
Theorem top_node_columns_are_read_first hgf ci with_surprise figsize slider n
    df k :
  to_pandas hgf = OK df ->
  count_nodes df = S k ->
  (node_col (S k) "muhat" ∉ columns df ->
   plot_trajectories hgf ci with_surprise figsize slider n
   = (Raise (KeyError (node_col (S k) "muhat")), n)) /\
  (node_col (S k) "muhat" ∈ columns df ->
   node_col (S k) "pihat" ∉ columns df ->
   plot_trajectories hgf ci with_surprise figsize slider n
   = (Raise (KeyError (node_col (S k) "pihat")), n)).
Proof.
  intros Hdf Hn. split.
  - intros Hmu. apply (plot_trajectories_first _ _ _ _ _ _ _ _ _ _ Hdf Hn).
    unfold node_figure. apply bind_raises. now apply df_getitem_missing.
  - intros Hmu Hpi. apply (plot_trajectories_first _ _ _ _ _ _ _ _ _ _ Hdf Hn).
    unfold node_figure.
    rewrite (bind_step_OK _ _ _ _ _ (df_getitem_total _ _ n Hmu)).
    apply bind_raises. now apply df_getitem_missing.
Qed.

(** X3: with the columns of the highest node at hand, the first figure needs
    the first and the last time stamp: without a [time] column the run ends
    with the [AttributeError] of [time], and on a table without rows with an
    [IndexError].  No identity has been taken. *)
Theorem first_figure_needs_time_stamps hgf ci with_surprise figsize slider n
    df k :
  to_pandas hgf = OK df ->
  count_nodes df = S k ->
  node_col (S k) "muhat" ∈ columns df ->
  node_col (S k) "pihat" ∈ columns df ->
  ("time" ∉ columns df ->
   plot_trajectories hgf ci with_surprise figsize slider n
   = (Raise (AttributeError "time"), n)) /\
  ("time" ∈ columns df -> nrows df = 0%nat ->
   plot_trajectories hgf ci with_surprise figsize slider n
   = (Raise IndexError, n)).
Proof.
  intros Hdf Hn Hmu Hpi.
  assert (Hstart : forall e,
    node_x_range df [] None n = (Raise e, n) ->
    plot_trajectories hgf ci with_surprise figsize slider n = (Raise e, n)).
  { intros e Hx. apply (plot_trajectories_first _ _ _ _ _ _ _ _ _ _ Hdf Hn).
    unfold node_figure.
    rewrite (bind_step_OK _ _ _ _ _ (df_getitem_total _ _ n Hmu)).
    rewrite (bind_step_OK _ _ _ _ _ (df_getitem_total _ _ n Hpi)).
    now apply bind_raises. }
  split.
  - intros Htime. apply Hstart. unfold node_x_range. cbn [length Nat.eqb negb].
    apply bind_raises. now apply df_getattr_missing.
  - intros Htime Hrows. apply Hstart. unfold node_x_range.
    cbn [length Nat.eqb negb].
    rewrite (bind_step_OK _ _ _ _ _ (df_getattr_total _ _ n Htime)).
    apply bind_raises. now apply iloc_empty.
Qed.

Lemma top_node_columns_are_read_first_witness :
  n_nodes misnamed_hgf = 1%nat /\
  plot_trajectories misnamed_hgf false true 200 true 0
  = (Raise (KeyError "node_1_muhat"), 0%nat).
Proof.
  split; [reflexivity |].
  refine (proj1 (top_node_columns_are_read_first misnamed_hgf false true 200
                   true 0 _ 0 eq_refl eq_refl) _).
  vm_compute. intros H. repeat (apply elem_of_cons in H as [H | H]; [discriminate H |]).
  now apply elem_of_nil in H.
Defined.

Lemma first_figure_needs_time_stamps_witness :
  plot_trajectories rowless_hgf true true 200 true 0 = (Raise IndexError, 0%nat).
Proof.
  refine (proj2 (first_figure_needs_time_stamps rowless_hgf true true 200 true
                   0 _ 0 eq_refl eq_refl _ _) _ eq_refl);
    vm_compute; repeat constructor.
Defined.

(** ** What the toolkit refuses *)






Lemma node_x_range_first df lp n :
  "time" ∈ columns df -> nrows df <> 0%nat ->
  node_x_range df [] lp n
  = (OK (FromTuple (Iloc (Col "time") 0) (Iloc (Col "time") (-1))), n).
Proof.
  intros Htime Hrows. unfold node_x_range. cbn [length Nat.eqb negb].
  run_reads. reflexivity.
Qed.

(** X15: a negative [figsize] is refused when the first figure is made: with
    the columns of the highest node and the time stamps at hand, the run ends
    with the [ValueError] of the height, before any identity is taken and
    whatever the model and the flags. *)
Theorem negative_height_is_refused hgf ci with_surprise figsize slider n df k :
  to_pandas hgf = OK df ->
  count_nodes df = S k ->
  node_col (S k) "muhat" ∈ columns df ->
  node_col (S k) "pihat" ∈ columns df ->
  "time" ∈ columns df ->
  nrows df <> 0%nat ->
  (figsize < 0)%Z ->
  plot_trajectories hgf ci with_surprise figsize slider n
  = (Raise (ValueError "height"), n).
Proof.
  intros Hdf Hn Hmu Hpi Htime Hrows Hsize.
  apply (plot_trajectories_first _ _ _ _ _ _ _ _ _ _ Hdf Hn).
  unfold node_figure.
  rewrite (bind_step_OK _ _ _ _ _ (df_getitem_total _ _ n Hmu)).
  rewrite (bind_step_OK _ _ _ _ _ (df_getitem_total _ _ n Hpi)).
  rewrite (bind_step_OK _ _ _ _ _ (node_x_range_first df None n Htime Hrows)).
  apply bind_raises.
  unfold new_figure. apply bind_raises. unfold check_height.
  rewrite height_ok_node, (proj2 (Z.leb_gt _ _) Hsize). reflexivity.
Qed.

Lemma negative_height_is_refused_witness :
  plot_trajectories (demo_hgf "continuous") true true (-7) true 0
  = (Raise (ValueError "height"), 0%nat).
Proof.
  apply (negative_height_is_refused (demo_hgf "continuous") true true (-7) true
           0 demo_df 1 eq_refl eq_refl);
    [vm_compute; repeat constructor | vm_compute; repeat constructor
    | vm_compute; repeat constructor | discriminate | lia].
Defined.

(** ** The vertical ranges *)

Lemma plot_input_y_range hgf df i f n f' n' :
  plot_input hgf df i f n = (OK f', n') -> y_range f' = y_range f /\ n' = n.
Proof.
  unfold plot_input. intros H.
  destruct (i =? 1)%nat;
    [destruct (String.eqb (model_type hgf) "continuous");
     [| destruct (String.eqb (model_type hgf) "binary")] |];
    inv_OK; auto.
Qed.

Lemma plot_mean_y_range df mu color f n f' n' :
  plot_mean df mu color f n = (OK f', n') -> y_range f' = y_range f /\ n' = n.
Proof. unfold plot_mean. intros H. inv_OK. auto. Qed.

Lemma plot_sd_y_range hgf df ci i color f n f' n' :
  plot_sd hgf df ci i (Col (node_col i "pihat")) color f n = (OK f', n') ->
  if shows_band hgf ci i
  then y_range f' = {| rid := n; rkind := band_range i |} /\ n' = S n
  else y_range f' = y_range f /\ n' = n.
Proof.
  unfold plot_sd, shows_band. intros H.
  destruct ci; cbn [andb];
    [destruct (negb (String.eqb (model_type hgf) "binary" && (i =? 1)%nat)) |];
    inv_OK; auto.
Qed.

Lemma plot_surprise_y_range df with_surprise i f n f' n' :
  plot_surprise df with_surprise i f n = (OK f', n') ->
  y_range f' = y_range f /\ (n <= n')%nat.
Proof.
  unfold plot_surprise. intros H. destruct with_surprise; inv_OK; cbn; auto.
Qed.

Lemma node_figure_y_range hgf df ci with_surprise figsize i color cols lp n f n' :
  node_figure hgf df ci with_surprise figsize i color cols lp n = (OK f, n') ->
  (n <= rid (y_range f) < n')%nat /\
  (cols = [] -> (n < rid (y_range f))%nat) /\
  rkind (y_range f) = if shows_band hgf ci i then band_range i else DataRange1d.
Proof.
  unfold node_figure. intros H.
  apply bind_OK in H as (mu & n1 & Hmu & H).
  apply df_getitem_OK in Hmu as (-> & -> & _).
  apply bind_OK in H as (pi & n2 & Hpi & H).
  apply df_getitem_OK in Hpi as (-> & -> & _).
  apply bind_OK in H as (xa & n3 & Hx & H).
  apply bind_OK in H as (f0 & n4 & Hnew & H).
  assert (Hy0 : exists m, y_range f0 = {| rid := m; rkind := DataRange1d |} /\
                          (n <= m)%nat /\ n4 = S m /\
                          (cols = [] -> (n < m)%nat)).
  { unfold node_x_range in Hx. unfold new_figure, range_of_arg in Hnew.
    destruct cols as [|c cols]; cbn [length Nat.eqb negb] in Hx; inv_OK.
    - exists (S n). cbn. split_and!; auto.
    - exists n. cbn. split_and!; auto. congruence. }
  destruct Hy0 as (m & Hy0 & Hm & -> & Hfirst).
  apply bind_OK in H as (f1 & n5 & H1 & H).
  apply plot_input_y_range in H1 as [Hy1 ->].
  apply bind_OK in H as (f2 & n6 & H2 & H).
  apply plot_mean_y_range in H2 as [Hy2 ->].
  apply bind_OK in H as (f3 & n7 & H3 & H).
  apply plot_sd_y_range in H3.
  apply plot_surprise_y_range in H as [Hy4 Hle].
  rewrite Hy4.
  destruct (shows_band hgf ci i); destruct H3 as [Hy3 ->]; rewrite Hy3.
  - cbn. split_and!; auto; try lia.
    all: try (intros Hc; specialize (Hfirst Hc); lia).
  - rewrite Hy2, Hy1, Hy0. cbn. split_and!; auto; lia.
Qed.

Lemma node_loop_y_ranges hgf df ci with_surprise figsize i :
  forall drawn cols lp n figs lp' n',
    node_loop hgf df ci with_surprise figsize i drawn cols lp n
      = (OK (cols ++ figs, lp'), n') ->
    (forall j f, figs !! j = Some f ->
       (n <= rid (y_range f) < n')%nat /\
       (cols = [] -> (n < rid (y_range f))%nat) /\
       rkind (y_range f) =
         if shows_band hgf ci (i - j) then band_range (i - j) else DataRange1d) /\
    (forall j k f g, (j < k)%nat -> figs !! j = Some f -> figs !! k = Some g ->
       (rid (y_range f) < rid (y_range g))%nat).
Proof.
  induction i as [|i IH]; intros drawn cols lp n figs lp' n' H.
  - cbn in H. apply ret_OK in H as [[= Hc ->] ->].
    assert (figs = []) as ->.
    { apply (f_equal length) in Hc. rewrite length_app in Hc.
      destruct figs; [reflexivity | cbn in Hc; lia]. }
    split; [intros j f Hj | intros j k f g _ Hj]; now rewrite lookup_nil in Hj.
  - cbn [node_loop] in H.
    apply bind_OK in H as (fig & n1 & Hfig & H). cbv beta in H.
    pose proof (node_loop_OK _ _ _ _ _ _ _ _ _ _ (x_range fig) _ _ _ H
                  (entry_after _ _ _ _ eq_refl)) as (Hle & rest & Hrest & _).
    assert (figs = fig :: rest) as ->.
    { rewrite <- app_assoc in Hrest. now apply app_inv_head in Hrest. }
    replace (cols ++ fig :: rest) with ((cols ++ [fig]) ++ rest) in H
      by now rewrite <- app_assoc.
    apply IH in H as (Hall & Hord).
    apply node_figure_y_range in Hfig as (Hb & Hfirst & Hk).
    split.
    + intros [|j] f Hj; cbn in Hj.
      * injection Hj as <-. rewrite Nat.sub_0_r. split_and!; auto; lia.
      * destruct (Hall _ _ Hj) as (Hb' & _ & Hk'). cbn [Nat.sub].
        split_and!; auto; lia.
    + intros [|j] [|k] f g Hjk Hj Hg; cbn in Hj, Hg; try lia.
      * injection Hj as <-. destruct (Hall _ _ Hg) as (Hb' & _). lia.
      * apply (Hord j k); auto. lia.
Qed.

(** The loop inside a run that returns. *)
Lemma plot_trajectories_loop hgf ci with_surprise figsize slider n nd n' :
  plot_trajectories hgf ci with_surprise figsize slider n = (OK nd, n') ->
  exists df figs lp n1 tail,
    to_pandas hgf = OK df /\
    node_loop hgf df ci with_surprise figsize (count_nodes df) 0 [] None n
    = (OK (figs, lp), n1) /\
    nd = NColumn (NFigure <$> (figs ++ tail)) column_kwargs /\
    length figs = count_nodes df /\
    (forall f, f ∈ figs -> x_range f = time_range n).
Proof.
  intros Hrun. unfold plot_trajectories in Hrun.
  apply bind_OK in Hrun as (df & n0 & Hdf & H). cbv beta zeta in H.
  apply lift_OK in Hdf as [Hdf ->].
  apply bind_OK in H as ([cols lp] & n1 & Hloop & H). cbv beta zeta in H.
  cbn [fst snd] in H.
  pose proof (node_loop_OK _ _ _ _ _ _ _ _ _ _ (time_range n) _ _ _ Hloop eq_refl)
    as (_ & figs & Hfigs & Hlen & Hall & _).
  cbn [app] in Hfigs. subst cols.
  apply bind_OK in H as (sp & n2 & _ & H). cbv beta zeta in H.
  apply bind_OK in H as (cols & n3 & Hcols & H). cbv beta in H.
  apply ret_OK in H as [-> ->].
  exists df, figs, lp, n1.
  assert (Hx : forall f, f ∈ figs -> x_range f = time_range n).
  { intros f (j & Hj)%list_elem_of_lookup. apply (Hall _ _ Hj). }
  destruct slider.
  - apply bind_OK in Hcols as (sel & n4 & _ & Hcols). cbv beta in Hcols.
    apply ret_OK in Hcols as [-> ->].
    exists [sp; sel]. rewrite <- app_assoc. auto.
  - apply ret_OK in Hcols as [-> ->]. exists [sp]. auto.
Qed.

(** X4: every node figure has a vertical range of its own: the range from
    the least [muhat - sd] to the greatest [muhat + sd] when the figure shows
    the band, and the range the toolkit gives a figure otherwise; none of
    these objects is the horizontal range the figures share, and no two
    node figures hold the same one. *)
Theorem node_figures_own_their_y_range hgf ci with_surprise figsize slider n
    nd n' :
  plot_trajectories hgf ci with_surprise figsize slider n = (OK nd, n') ->
  exists children,
    nd = NColumn children column_kwargs /\
    (forall j f, (j < n_nodes hgf)%nat ->
       children !! j = Some (NFigure f) ->
       rkind (y_range f) =
         (if shows_band hgf ci (n_nodes hgf - j)
          then band_range (n_nodes hgf - j) else DataRange1d) /\
       rid (y_range f) <> rid (x_range f)) /\
    (forall j k f g, (j < k < n_nodes hgf)%nat ->
       children !! j = Some (NFigure f) ->
       children !! k = Some (NFigure g) ->
       rid (y_range f) <> rid (y_range g)).
Proof.
  intros (df & figs & lp & n1 & tail & Hdf & Hloop & -> & Hlen & Hx)%plot_trajectories_loop.
  apply (node_loop_y_ranges _ _ _ _ _ _ _ [] _ _ figs) in Hloop as (Hy & Hord).
  rewrite (n_nodes_count _ _ Hdf).
  eexists. split; [reflexivity |]. split.
  - intros j f Hj Hf. rewrite list_lookup_fmap, lookup_app_l in Hf by lia.
    destruct (figs !! j) as [g|] eqn:Hg; [| discriminate]. injection Hf as <-.
    destruct (Hy _ _ Hg) as (_ & Hfirst & Hk). split; [exact Hk |].
    rewrite (Hx g) by (apply list_elem_of_lookup; eauto). cbn.
    specialize (Hfirst eq_refl). lia.
  - intros j k f g Hjk Hf Hg.
    rewrite list_lookup_fmap, lookup_app_l in Hf by lia.
    rewrite list_lookup_fmap, lookup_app_l in Hg by lia.
    destruct (figs !! j) as [f'|] eqn:Hf'; [| discriminate]. injection Hf as <-.
    destruct (figs !! k) as [g'|] eqn:Hg'; [| discriminate]. injection Hg as <-.
    pose proof (Hord j k _ _ (proj1 Hjk) Hf' Hg'). lia.
Qed.

Lemma node_figures_own_their_y_range_witness :
  exists children,
    fst (plot_trajectories (demo_hgf "continuous") true true 200 true 0)
    = OK (NColumn children column_kwargs) /\
    forall f g,
      children !! 0%nat = Some (NFigure f) ->
      children !! 1%nat = Some (NFigure g) ->
      rkind (y_range f) = band_range 2 /\
      rid (y_range f) <> rid (y_range g).
Proof.
  destruct (plot_trajectories (demo_hgf "continuous") true true 200 true 0)
    as [[nd|e] n'] eqn:Hrun; [| vm_compute in Hrun; discriminate Hrun].
  destruct (node_figures_own_their_y_range _ _ _ _ _ _ _ _ Hrun)
    as (children & -> & Hkind & Hdiff).
  exists children. split; [reflexivity |]. intros f g H0 H1. split.
  - exact (proj1 (Hkind 0%nat f ltac:(cbn; lia) H0)).
  - apply (Hdiff 0%nat 1%nat); auto.
Defined.

(** X5: with [slider] set, the selection strip draws on the vertical range
    object of the figure of node 1, the last node figure made: the range of
    its band when that figure shows one, the toolkit's own otherwise. *)
Theorem selection_strip_shares_y_range_of_node1 hgf ci with_surprise figsize n
    nd n' :
  plot_trajectories hgf ci with_surprise figsize true n = (OK nd, n') ->
  exists children node1 select,
    nd = NColumn children column_kwargs /\
    children !! (n_nodes hgf - 1)%nat = Some (NFigure node1) /\
    title node1 = Str "Node 1" /\
    children !! S (n_nodes hgf) = Some (NFigure select) /\
    y_range select = y_range node1 /\
    rkind (y_range select) =
      (if shows_band hgf ci 1 then band_range 1 else DataRange1d).
Proof.
  intros Hrun.
  pose proof (plot_trajectories_loop _ _ _ _ _ _ _ _ Hrun)
    as (df' & figs' & lp & n1 & tail & Hdf' & Hloop & Hnd' & Hlen' & _).
  apply plot_trajectories_OK in Hrun
    as (df & figs & sp & rest & Hdf & -> & Hlen & Hn & Hall & _ & Hrest).
  rewrite Hdf in Hdf'. injection Hdf' as <-.
  destruct Hrest as (sel & p & m & -> & Hp & Hsel & _).
  injection Hnd' as Hnd'.
  assert (Hp' : figs' !! (count_nodes df - 1)%nat = Some p).
  { assert (H : (NFigure <$> (figs' ++ tail)) !! (count_nodes df - 1)%nat
                = Some (NFigure p)).
    { rewrite <- Hnd', lookup_column_node by lia. now rewrite Hp. }
    rewrite list_lookup_fmap, lookup_app_l in H by lia.
    destruct (figs' !! (count_nodes df - 1)%nat) as [q|]; [| discriminate].
    now injection H as ->. }
  apply (node_loop_y_ranges _ _ _ _ _ _ _ [] _ _ figs') in Hloop as (Hy & _).
  destruct (Hy _ _ Hp') as (_ & _ & Hk).
  replace (count_nodes df - (count_nodes df - 1))%nat with 1%nat in Hk by lia.
  destruct Hsel as (_ & _ & Hys & _).
  rewrite (n_nodes_count _ _ Hdf).
  exists (NFigure <$> (figs ++ sp :: [sel])), p, sel. split_and!; auto.
  - rewrite lookup_column_node by lia. now rewrite Hp.
  - destruct (Hall _ _ Hp) as (Ht & _).
    replace (count_nodes df - (count_nodes df - 1))%nat with 1%nat in Ht by lia.
    exact Ht.
  - rewrite <- Hlen, <- (Nat.add_0_r (length figs)).
    rewrite lookup_column_rest. reflexivity.
  - now rewrite Hys.
Qed.

Lemma selection_strip_shares_y_range_of_node1_witness :
  exists children node1 select,
    fst (plot_trajectories (demo_hgf "continuous") true true 200 true 0)
    = OK (NColumn children column_kwargs) /\
    children !! 1%nat = Some (NFigure node1) /\
    children !! 3%nat = Some (NFigure select) /\
    y_range select = y_range node1 /\
    rkind (y_range select) = band_range 1.
Proof.
  destruct (plot_trajectories (demo_hgf "continuous") true true 200 true 0)
    as [[nd|e] n'] eqn:Hrun; [| vm_compute in Hrun; discriminate Hrun].
  destruct (selection_strip_shares_y_range_of_node1 _ _ _ _ _ _ _ Hrun)
    as (children & node1 & select & -> & H1 & _ & H3 & Hy & Hk).
  exists children, node1, select. split_and!; auto.
Defined.

(** ** The flags unset *)

Lemma node_glyphs_primary hgf ci i color :
  Forall (fun g => glyph_kwarg "y_range_name" g = None)
    (node_glyphs hgf ci false i color).
Proof.
  unfold node_glyphs, observation_circles.
  destruct (i =? 1)%nat; [destruct (String.eqb _ "continuous") |];
    destruct (shows_band hgf ci i); repeat constructor.
Qed.

(** X6: with [surprise] unset no node figure has a range named [surprise],
    an axis added to it, or a glyph on another range than its own; the
    figure of the global surprise is made all the same, after the node
    figures, with the area and the line of the [surprise] column. *)
Theorem no_node_surprise_when_unset hgf ci figsize slider n nd n' :
  plot_trajectories hgf ci false figsize slider n = (OK nd, n') ->
  exists children,
    nd = NColumn children column_kwargs /\
    (forall j f, (j < n_nodes hgf)%nat ->
       children !! j = Some (NFigure f) ->
       extra_y_ranges f !! "surprise" = None /\
       layouts f = [] /\
       Forall (fun g => glyph_kwarg "y_range_name" g = None) (renderers f)) /\
    exists sp,
      children !! n_nodes hgf = Some (NFigure sp) /\
      renderers sp = global_surprise_glyphs /\
      draws "surprise" sp = true.
Proof.
  intros (df & figs & sp & rest & Hdf & -> & Hlen & Hn & Hall & Hsp & _)%plot_trajectories_OK.
  rewrite (n_nodes_count _ _ Hdf).
  eexists. split; [reflexivity |]. split.
  - intros j f Hj Hf. rewrite lookup_column_node in Hf by lia.
    destruct (figs !! j) as [g|] eqn:Hg; [| discriminate]. injection Hf as <-.
    destruct (Hall _ _ Hg) as (_ & _ & _ & Hr & Hl & He).
    split_and!; auto.
    + destruct (extra_y_ranges g !! "surprise"); [discriminate He | reflexivity].
    + rewrite Hr. apply node_glyphs_primary.
  - exists sp. rewrite <- Hlen. split; [apply lookup_column_surprise |].
    destruct Hsp as (_ & _ & _ & Hr). unfold draws. rewrite Hr.
    split; reflexivity.
Qed.

Lemma no_node_surprise_when_unset_witness :
  exists children,
    fst (plot_trajectories (demo_hgf "continuous") true false 200 true 0)
    = OK (NColumn children column_kwargs) /\
    forall f, children !! 0%nat = Some (NFigure f) -> layouts f = [].
Proof.
  destruct (plot_trajectories (demo_hgf "continuous") true false 200 true 0)
    as [[nd|e] n'] eqn:Hrun; [| vm_compute in Hrun; discriminate Hrun].
  destruct (no_node_surprise_when_unset _ _ _ _ _ _ _ Hrun)
    as (children & -> & Hnodes & _).
  exists children. split; [reflexivity |]. intros f Hf.
  apply (Hnodes 0%nat f); [cbn; lia | exact Hf].
Defined.

(** X7: with [slider] unset no figure of the column carries a tool of the
    code's making: the column ends with the figure of the global surprise,
    and the selection of a time range is not offered. *)
Theorem no_range_tool_without_slider hgf ci with_surprise figsize n nd n' :
  plot_trajectories hgf ci with_surprise figsize false n = (OK nd, n') ->
  exists children,
    nd = NColumn children column_kwargs /\
    length children = S (n_nodes hgf) /\
    forall j f, children !! j = Some (NFigure f) -> tools f = [].
Proof.
  intros (df & figs & sp & rest & Hdf & -> & Hlen & Hn & Hall & Hsp & ->)%plot_trajectories_OK.
  rewrite (n_nodes_count _ _ Hdf).
  eexists. split; [reflexivity |]. split.
  - rewrite length_fmap, length_app, Hlen. cbn. lia.
  - intros j f Hf.
    destruct (decide (j < length figs)%nat) as [Hlt | Hge].
    + rewrite lookup_column_node in Hf by exact Hlt.
      destruct (figs !! j) as [g|] eqn:Hg; [| discriminate]. injection Hf as <-.
      apply (Hall _ _ Hg).
    + destruct (decide (j = length figs)) as [-> | Hne].
      * rewrite lookup_column_surprise in Hf. injection Hf as <-. apply Hsp.
      * rewrite lookup_ge_None_2 in Hf; [discriminate |].
        rewrite length_fmap, length_app. cbn. lia.
Qed.

Lemma no_range_tool_without_slider_witness :
  exists children,
    fst (plot_trajectories (demo_hgf "continuous") true true 200 false 0)
    = OK (NColumn children column_kwargs) /\
    length children = 3%nat.
Proof.
  destruct (plot_trajectories (demo_hgf "continuous") true true 200 false 0)
    as [[nd|e] n'] eqn:Hrun; [| vm_compute in Hrun; discriminate Hrun].
  destruct (no_range_tool_without_slider _ _ _ _ _ _ _ Hrun)
    as (children & -> & Hlen & _).
  exists children. split; [reflexivity | exact Hlen].
Defined.

(** ** Colours and the input node *)

Lemma next_color_period k : next_color (k + 5) = next_color k.
Proof.
  unfold next_color. cbn [length Dark2_5].
  replace (k + 5)%nat with (k + 1 * 5)%nat by lia.
  now rewrite Nat.Div0.mod_add.
Qed.

Lemma next_color_palette k : next_color k ∈ Dark2_5.
Proof.
  unfold next_color. apply list_elem_of_In, nth_In. cbn [length Dark2_5].
  apply Nat.mod_upper_bound. discriminate.
Qed.

(** X8: the colours are drawn from the palette of five in the order in which
    the figures are made, from the highest node down: the mean of node [i] is
    drawn in colour number [(n_nodes - i) mod 5], its band, when it has one,
    in the same colour, and two nodes five apart get the same colour. *)
Theorem node_colours_cycle hgf ci with_surprise figsize slider n nd n' :
  plot_trajectories hgf ci with_surprise figsize slider n = (OK nd, n') ->
  exists children,
    nd = NColumn children column_kwargs /\
    (forall i, (1 <= i <= n_nodes hgf)%nat ->
       exists f,
         children !! (n_nodes hgf - i)%nat = Some (NFigure f) /\
         let color := nth ((n_nodes hgf - i) mod 5) Dark2_5 "" in
         color ∈ Dark2_5 /\
         mean_line i color ∈ renderers f /\
         (shows_band hgf ci i = true -> uncertainty_band i color ∈ renderers f) /\
         forall c, mean_line i c ∈ renderers f -> c = color) /\
    forall i, (1 <= i)%nat -> (i + 5 <= n_nodes hgf)%nat ->
      next_color (n_nodes hgf - i) = next_color (n_nodes hgf - (i + 5)).
Proof.
  intros (children & -> & Hnodes)%node_figure_at.
  exists children. split; [reflexivity |]. split.
  - intros i Hi. destruct (Hnodes i Hi) as (f & Hf & _ & _ & _ & Hr & _).
    exists f. split; [exact Hf |].
    change (nth ((n_nodes hgf - i) mod 5) Dark2_5 "")
      with (next_color (n_nodes hgf - i)).
    cbv zeta. rewrite Hr. split_and!.
    + apply next_color_palette.
    + unfold node_glyphs. rewrite !elem_of_app. right. left.
      now apply list_elem_of_singleton.
    + intros Hb. now apply band_in_node_glyphs.
    + intros c Hc. unfold node_glyphs, observation_circles in Hc.
      rewrite !elem_of_app in Hc. destruct Hc as [H | [H | [H | H]]].
      * destruct (i =? 1)%nat; [| now apply elem_of_nil in H].
        destruct (String.eqb _ "continuous");
          [apply list_elem_of_singleton in H; discriminate H |].
        now apply elem_of_nil in H.
      * apply list_elem_of_singleton in H. now injection H.
      * destruct (shows_band hgf ci i); [| now apply elem_of_nil in H].
        apply list_elem_of_singleton in H. discriminate H.
      * destruct with_surprise; [| now apply elem_of_nil in H].
        apply elem_of_cons in H as [H | H]; [discriminate H |].
        apply list_elem_of_singleton in H. discriminate H.
  - intros i Hi Hn.
    replace (n_nodes hgf - i)%nat with (n_nodes hgf - (i + 5) + 5)%nat by lia.
    apply next_color_period.
Qed.

Lemma node_colours_cycle_witness :
  exists children,
    fst (plot_trajectories (demo_hgf "continuous") true true 200 true 0)
    = OK (NColumn children column_kwargs) /\
    exists f, children !! 1%nat = Some (NFigure f) /\
              mean_line 1 "#d95f02" ∈ renderers f.
Proof.
  destruct (plot_trajectories (demo_hgf "continuous") true true 200 true 0)
    as [[nd|e] n'] eqn:Hrun; [| vm_compute in Hrun; discriminate Hrun].
  destruct (node_colours_cycle _ _ _ _ _ _ _ _ Hrun) as (children & -> & Hcol & _).
  exists children. split; [reflexivity |].
  destruct (Hcol 1%nat ltac:(cbn; lia)) as (f & Hf & _ & Hm & _).
  exists f. split; [exact Hf | exact Hm].
Defined.

(** X9: in a column that is returned the figure of node 1 draws the
    observations exactly when the model is continuous: as circles of size 2,
    the first thing drawn on the figure, and with nothing else. *)
Theorem input_node_circles hgf ci with_surprise figsize slider n nd n' :
  plot_trajectories hgf ci with_surprise figsize slider n = (OK nd, n') ->
  exists children node1,
    nd = NColumn children column_kwargs /\
    children !! (n_nodes hgf - 1)%nat = Some (NFigure node1) /\
    (draws "observation" node1 = true <-> model_type hgf = "continuous") /\
    (exists rest,
       renderers node1 = observation_circles (model_type hgf) ++ rest /\
       Forall (fun g => glyph_uses "observation" g = false) rest) /\
    (model_type hgf = "continuous" ->
     exists g, observation_circles (model_type hgf) = [g] /\
               g ∈ renderers node1 /\
               glyph_uses "observation" g = true /\
               glyph_kwarg "size" g = Some (VInt 2)).
Proof.
  intros Hrun.
  pose proof (plot_trajectories_OK _ _ _ _ _ _ _ _ Hrun)
    as (df & _ & _ & _ & Hdf & _ & _ & Hn & _).
  apply node_figure_at in Hrun as (children & -> & Hnodes).
  rewrite (n_nodes_count _ _ Hdf) in *.
  destruct (Hnodes 1%nat ltac:(lia)) as (f & Hf & _ & _ & _ & Hr & _).
  exists children, f. split_and!; auto.
  - unfold draws. rewrite Hr, node_glyphs_observation. cbn [Nat.eqb andb].
    now rewrite String.eqb_eq.
  - rewrite Hr. unfold node_glyphs. cbn [Nat.eqb]. eexists. split; [reflexivity |].
    destruct (shows_band hgf ci 1); destruct with_surprise; repeat constructor.
  - intros Hc. rewrite Hr. unfold node_glyphs. cbn [Nat.eqb]. rewrite Hc.
    eexists. split_and!; [reflexivity | | reflexivity | reflexivity].
    apply elem_of_app. left. now apply list_elem_of_singleton.
Qed.

Lemma input_node_circles_witness :
  exists children node1,
    fst (plot_trajectories (demo_hgf "continuous") true true 200 true 0)
    = OK (NColumn children column_kwargs) /\
    children !! 1%nat = Some (NFigure node1) /\
    draws "observation" node1 = true.
Proof.
  destruct (plot_trajectories (demo_hgf "continuous") true true 200 true 0)
    as [[nd|e] n'] eqn:Hrun; [| vm_compute in Hrun; discriminate Hrun].
  destruct (input_node_circles _ _ _ _ _ _ _ _ Hrun)
    as (children & node1 & -> & H1 & Hiff & _).
  exists children, node1. split_and!; auto.
  now apply Hiff.
Defined.

(** * Further properties of the application *)

Lemma widgets_of_figures figs kw :
  widgets_of (NColumn (NFigure <$> figs) kw) = [].
Proof. cbn. induction figs as [|f figs IH]; [reflexivity | exact IH]. Qed.

Section Application.

Variable load_data : string -> result (list Q).
Variable HGF_input_data : hgf_config -> list Q -> result HGF.

(** X10: in every state the application reaches, the document shows each of
    the four sliders once, in the order of their numbers, and no other
    widget: the dropdown is made and never mounted. *)
Theorem dropdown_is_never_mounted st0 evs :
  main load_data HGF_input_data = OK st0 ->
  let st := run_events HGF_input_data evs st0 in
  List.flat_map widgets_of (document_tree st)
  = [slider1_w; slider2_w; slider3_w; slider4_w].
Proof.
  intros Hmain st.
  pose proof (reachable_good _ _ _ evs Hmain) as Hg. fold st in Hg.
  destruct (good_layout _ _ _ Hg)
    as (plot & Hl & cfg & hgf & n & n' & _ & Hplot).
  apply plot_trajectories_OK in Hplot as (_ & figs & sp & rest & _ & -> & _).
  unfold document_tree. rewrite (good_roots _ _ _ Hg), Hl.
  cbn [fmap list_fmap List.flat_map].
  change (widgets_of (NColumn [app_title; widgets;
                               NColumn (NFigure <$> figs ++ sp :: rest) column_kwargs] []))
    with (widgets_of app_title ++ widgets_of widgets
          ++ widgets_of (NColumn (NFigure <$> figs ++ sp :: rest) column_kwargs)
          ++ []).
  rewrite widgets_of_figures. reflexivity.
Qed.

Lemma dispatch_calls ev st :
  good load_data HGF_input_data st ->
  length (calls (outside (snd (dispatch HGF_input_data ev st))))
  = (length (calls (outside st)) + refits [ev])%nat.
Proof.
  intros Hg. destruct ev as [w new | attr d].
  - destruct (get_slider w st) as [s|] eqn:Hs.
    + destruct (good_layout _ _ _ Hg) as (plot & Hl & _).
      rewrite (dispatch_slider _ _ _ _ _ _ _ _ _ (good_handlers _ _ _ Hg) Hs Hl).
      destruct (refit _ _) as [r w'] eqn:Hfit.
      apply fit_hgf_inv in Hfit as (cfg & _ & Hcalls & _).
      assert (Hw : w <> dropdown_w) by (intros ->; discriminate Hs).
      unfold refits. cbn [List.filter]. rewrite bool_decide_eq_false_2 by exact Hw.
      cbn [negb length].
      destruct r; cbn [snd outside set_layout set_outside]; rewrite Hcalls;
        cbn [outside set_slider]; rewrite length_app; reflexivity.
    + unfold dispatch. rewrite Hs. destruct w; try discriminate Hs.
      unfold refits. cbn [List.filter snd].
      rewrite bool_decide_eq_true_2 by reflexivity. cbn. lia.
  - rewrite dispatch_dropdown by apply Hg. cbn. lia.
Qed.

(** X11: in every state the application reaches, the library has been called
    once for the data, once for the first fit, and once more for every change
    of the value of a slider since, whether that fit returned or raised; a
    change of the dropdown costs no call. *)
Theorem one_fit_per_slider_change st0 evs :
  main load_data HGF_input_data = OK st0 ->
  length (calls (outside (run_events HGF_input_data evs st0)))
  = (2 + refits evs)%nat.
Proof.
  intros Hmain.
  pose proof (main_good _ _ _ Hmain) as Hg0.
  assert (H0 : length (calls (outside st0)) = 2%nat).
  { revert Hmain. unfold main, log_call, lift, bind. cbv beta iota zeta.
    destruct (load_data "continuous") as [ts|e]; [| discriminate].
    destruct (fit_hgf _ _ _ _ _ _ _) as [[plot|e] w2] eqn:Hfit; [| discriminate].
    intros [= <-]. apply fit_hgf_inv in Hfit as (cfg & _ & Hcalls & _).
    cbn [outside]. rewrite Hcalls. reflexivity. }
  rewrite <- H0. clear H0 Hmain. revert st0 Hg0.
  induction evs as [|ev evs IH]; intros st Hg.
  - cbn. lia.
  - change (run_events HGF_input_data (ev :: evs) st)
      with (run_events HGF_input_data evs (snd (dispatch HGF_input_data ev st))).
    rewrite IH by now apply dispatch_good.
    rewrite dispatch_calls by exact Hg.
    unfold refits. cbn [List.filter]. destruct ev as [w new | attr d].
    + destruct (negb _); cbn [length]; lia.
    + cbn [length]. lia.
Qed.

End Application.

Lemma one_fit_per_slider_change_witness :
  match main demo_load_data demo_HGF with
  | Raise _ => False
  | OK st0 =>
      let d := {| label := "Model type"; menu := [] |} in
      length (calls (outside (run_events demo_HGF
                [SliderChange slider1_w 1.0%Q; DropdownChange "label" d;
                 SliderChange slider1_w (-2)%Q] st0))) = 4%nat
  end.
Proof.
  destruct (main demo_load_data demo_HGF) as [st0|e] eqn:Hmain;
    [| vm_compute in Hmain; discriminate Hmain].
  intros d.
  exact (one_fit_per_slider_change demo_load_data demo_HGF st0
           [SliderChange slider1_w 1.0%Q; DropdownChange "label" d;
            SliderChange slider1_w (-2)%Q] Hmain).
Defined.

Lemma dropdown_is_never_mounted_witness :
  match main demo_load_data demo_HGF with
  | Raise _ => False
  | OK st0 =>
      List.flat_map widgets_of
        (document_tree (run_events demo_HGF [SliderChange slider2_w 1.0%Q] st0))
      = [slider1_w; slider2_w; slider3_w; slider4_w]
  end.
Proof.
  destruct (main demo_load_data demo_HGF) as [st0|e] eqn:Hmain;
    [| vm_compute in Hmain; discriminate Hmain].
  exact (dropdown_is_never_mounted demo_load_data demo_HGF st0
           [SliderChange slider2_w 1.0%Q] Hmain).
Defined.


(** ** The display and the sliders *)

Section Display.

Variable load_data : string -> result (list Q).
Variable HGF_input_data : hgf_config -> list Q -> result HGF.

Lemma fit_in_sync st r w' :
  refit HGF_input_data st = (r, w') ->
  in_sync HGF_input_data
    (match r with
     | OK plot => set_layout (NColumn [app_title; widgets; plot] [])
                    (set_outside w' st)
     | Raise _ => set_outside w' st
     end).
Proof.
  intros Hfit. unfold refit in Hfit.
  apply fit_hgf_inv in Hfit as (cfg & Hcfg & Hcalls & Hr).
  exists cfg. destruct r as [plot|e].
  - destruct Hr as (hgf & Hhgf & Hplot). cbn [set_layout set_outside slider1 slider2 slider3 slider4 timeseries outside layout]. split_and!; auto.
    + rewrite Hcalls. apply last_snoc.
    + intros hgf' Hhgf'. rewrite Hhgf in Hhgf'. injection Hhgf' as <-.
      exists (next_id (outside st)). intros plot' n' Hp.
      rewrite Hplot in Hp. now injection Hp as <- _.
  - cbn [set_layout set_outside slider1 slider2 slider3 slider4 timeseries outside layout]. split_and!; auto.
    + rewrite Hcalls. apply last_snoc.
    + intros hgf Hhgf. destruct Hr as [[Hr _] | (hgf' & Hhgf' & Hplot)];
        [congruence |].
      rewrite Hhgf in Hhgf'. injection Hhgf' as <-.
      exists (next_id (outside st)). intros plot' n' Hp.
      rewrite Hplot in Hp. discriminate Hp.
Qed.

Lemma main_in_sync st0 :
  main load_data HGF_input_data = OK st0 -> in_sync HGF_input_data st0.
Proof.
  unfold main, log_call, lift, bind. cbv beta iota zeta.
  destruct (load_data "continuous") as [ts|e]; [| discriminate].
  destruct (fit_hgf _ _ _ _ _ _ _) as [[plot|e] w2] eqn:Hfit; [| discriminate].
  intros [= <-].
  apply fit_hgf_inv in Hfit as (cfg & Hcfg & Hcalls & hgf & Hhgf & Hplot).
  exists cfg. cbn [set_layout set_outside slider1 slider2 slider3 slider4 timeseries outside layout]. split_and!; auto.
  - rewrite Hcalls. apply last_snoc.
  - intros hgf' Hhgf'. rewrite Hhgf in Hhgf'. injection Hhgf' as <-.
    eexists. intros plot' n' Hp. rewrite Hplot in Hp. now injection Hp as <- _.
Qed.

Lemma dispatch_in_sync ev st :
  good load_data HGF_input_data st ->
  in_sync HGF_input_data st ->
  in_sync HGF_input_data (snd (dispatch HGF_input_data ev st)).
Proof.
  intros Hg Hsync. destruct ev as [w new | attr d].
  - destruct (get_slider w st) as [s|] eqn:Hs.
    + destruct (good_layout _ _ _ Hg) as (plot & Hl & _).
      rewrite (dispatch_slider _ _ _ _ new _ _ _ _ (good_handlers _ _ _ Hg) Hs Hl).
      destruct (refit _ _) as [r w'] eqn:Hfit.
      apply fit_in_sync in Hfit. destruct r; exact Hfit.
    + unfold dispatch. rewrite Hs. exact Hsync.
  - rewrite dispatch_dropdown by apply Hg. exact Hsync.
Qed.

Lemma run_events_in_sync evs :
  forall st,
    good load_data HGF_input_data st ->
    in_sync HGF_input_data st ->
    in_sync HGF_input_data (run_events HGF_input_data evs st).
Proof.
  induction evs as [|ev evs IH]; intros st Hg Hsync; [exact Hsync |].
  change (run_events HGF_input_data (ev :: evs) st)
    with (run_events HGF_input_data evs (snd (dispatch HGF_input_data ev st))).
  apply IH; [now apply dispatch_good | now apply dispatch_in_sync].
Qed.

(** X12: in every state the application reaches, the last call into the
    library built the model from the values the four sliders hold now, and
    whenever the library returns for them a model that can be plotted, the
    third child of the layout is the column [plot_trajectories] returns for
    that model: what is shown is never the plot of other values than the
    sliders', unless the fit for theirs fails. *)
Theorem display_follows_sliders st0 evs :
  main load_data HGF_input_data = OK st0 ->
  let st := run_events HGF_input_data evs st0 in
  exists cfg,
    fixed_config cfg (value (slider1 st)) (value (slider2 st))
      (value (slider3 st)) (value (slider4 st)) /\
    last (calls (outside st)) = Some (Call_HGF cfg (timeseries st)) /\
    forall hgf,
      HGF_input_data cfg (timeseries st) = OK hgf ->
      plottable hgf true 200 true = true ->
      exists n plot n',
        plot_trajectories_default hgf n = (OK plot, n') /\
        layout st = NColumn [app_title; widgets; plot] [].
Proof.
  intros Hmain st.
  destruct (run_events_in_sync evs st0 (main_good _ _ _ Hmain)
              (main_in_sync _ Hmain)) as (cfg & Hcfg & Hlast & Hshown).
  exists cfg. split_and!; auto.
  intros hgf Hhgf Hp. destruct (Hshown hgf Hhgf) as (n & Hn).
  destruct (proj2 (plottable_exact hgf true true 200 true n) Hp)
    as (plot & n' & Hrun).
  exists n, plot, n'. split; [exact Hrun |]. exact (Hn plot n' Hrun).
Qed.

End Display.

Lemma display_follows_sliders_witness :
  match main demo_load_data demo_HGF with
  | Raise _ => False
  | OK st0 =>
      let st := run_events demo_HGF
                  [SliderChange slider1_w 1.0%Q; SliderChange slider1_w (-2)%Q]
                  st0 in
      exists cfg,
        omega cfg = {[ "1" := value (slider1 st); "2" := value (slider2 st) ]} /\
        last (calls (outside st)) = Some (Call_HGF cfg (timeseries st))
  end.
Proof.
  destruct (main demo_load_data demo_HGF) as [st0|e] eqn:Hmain;
    [| vm_compute in Hmain; discriminate Hmain].
  intros st.
  destruct (display_follows_sliders demo_load_data demo_HGF st0
              [SliderChange slider1_w 1.0%Q; SliderChange slider1_w (-2)%Q]
              Hmain) as (cfg & Hcfg & Hlast & _).
  exists cfg. split; [apply Hcfg | exact Hlast].
Defined.

(** ** The constructions of the model *)

Section Constructions.

Variable load_data : string -> result (list Q).
Variable HGF_input_data : hgf_config -> list Q -> result HGF.

Lemma main_calls st0 :
  main load_data HGF_input_data = OK st0 ->
  length (calls (outside st0)) = 2%nat.
Proof.
  unfold main, log_call, lift, bind. cbv beta iota zeta.
  destruct (load_data "continuous") as [ts|e]; [| discriminate].
  destruct (fit_hgf _ _ _ _ _ _ _) as [[plot|e] w2] eqn:Hfit; [| discriminate].
  intros [= <-]. apply fit_hgf_inv in Hfit as (cfg & _ & Hcalls & _).
  cbn [outside]. rewrite Hcalls. reflexivity.
Qed.

Lemma refits_cons ev evs : refits (ev :: evs) = (refits [ev] + refits evs)%nat.
Proof.
  unfold refits. cbn [List.filter].
  destruct ev as [w new | attr d]; [destruct (negb _) |]; reflexivity.
Qed.

Lemma run_events_calls evs :
  forall st,
    good load_data HGF_input_data st ->
    length (calls (outside (run_events HGF_input_data evs st)))
    = (length (calls (outside st)) + refits evs)%nat.
Proof.
  induction evs as [|ev evs IH]; intros st Hg.
  - cbn. lia.
  - change (run_events HGF_input_data (ev :: evs) st)
      with (run_events HGF_input_data evs (snd (dispatch HGF_input_data ev st))).
    rewrite IH by now apply dispatch_good.
    rewrite (dispatch_calls load_data) by exact Hg.
    rewrite (refits_cons ev evs). lia.
Qed.

(** C7: in every state the application reaches, the time series is the one
    the accessor returned for ["continuous"] when the script started, and the
    accessor was called that once; the model has been constructed once when
    the script started and once more for every change of the value of a
    slider, each time on that series and with the same constants, only
    [omega] and [initial_mu] holding values that are not constants; and the
    last construction was given the values the sliders hold now. *)
Theorem fits_differ_in_omega_and_mu_only st0 evs :
  main load_data HGF_input_data = OK st0 ->
  let st := run_events HGF_input_data evs st0 in
  load_data "continuous" = OK (timeseries st) /\
  timeseries st = timeseries st0 /\
  exists fits,
    calls (outside st) = Call_load_data "continuous" :: fits /\
    length fits = S (refits evs) /\
    Forall (fun c =>
              exists cfg omega1 omega2 mu1 mu2,
                c = Call_HGF cfg (timeseries st0) /\
                n_levels cfg = 2%Z /\
                cfg_model_type cfg = "continuous" /\
                initial_pi cfg = {[ "1" := 1e2%Q; "2" := 1e1%Q ]} /\
                rho cfg = {[ "1" := 0.0%Q; "2" := 0.0%Q ]} /\
                kappas cfg = {[ "1" := 1.0%Q ]} /\
                verbose cfg = false /\
                omega cfg = {[ "1" := omega1; "2" := omega2 ]} /\
                initial_mu cfg = {[ "1" := mu1; "2" := mu2 ]}) fits /\
    exists cfg,
      last fits = Some (Call_HGF cfg (timeseries st0)) /\
      fixed_config cfg (value (slider1 st)) (value (slider2 st))
        (value (slider3 st)) (value (slider4 st)).
Proof.
  intros Hmain st.
  pose proof (main_good _ _ _ Hmain) as Hg0.
  pose proof (reachable_good _ _ _ evs Hmain) as Hg. fold st in Hg.
  pose proof (good_timeseries _ _ _ Hg0) as H0.
  pose proof (good_timeseries _ _ _ Hg) as H1.
  assert (Hts : timeseries st = timeseries st0) by congruence.
  split_and!; auto.
  destruct (good_calls _ _ _ Hg) as (fits & Hlog & Hfits).
  pose proof (run_events_calls evs st0 Hg0) as Hlen. fold st in Hlen.
  rewrite (main_calls _ Hmain), Hlog in Hlen. cbn [length] in Hlen.
  exists fits. split; [exact Hlog |]. split; [lia |]. split.
  - rewrite Hts in Hfits. eapply Forall_impl; [exact Hfits |].
    intros c (cfg & o1 & o2 & m1 & m2 & -> & Hcfg). exists cfg, o1, o2, m1, m2.
    split; [reflexivity | exact Hcfg].
  - destruct (run_events_in_sync load_data HGF_input_data evs st0 Hg0
                (main_in_sync load_data HGF_input_data _ Hmain))
      as (cfg & Hcfg & Hlast & _).
    fold st in Hcfg, Hlast. exists cfg. split; [| exact Hcfg].
    rewrite Hlog, Hts in Hlast.
    destruct fits as [|c fits]; [cbn in Hlen; lia | exact Hlast].
Qed.

End Constructions.

Lemma fits_differ_in_omega_and_mu_only_witness :
  match main demo_load_data demo_HGF with
  | Raise _ => False
  | OK st0 =>
      let st := run_events demo_HGF [SliderChange slider2_w (-3)%Q] st0 in
      demo_load_data "continuous" = OK (timeseries st) /\
      exists fits cfg,
        calls (outside st) = Call_load_data "continuous" :: fits /\
        length fits = 2%nat /\
        last fits = Some (Call_HGF cfg (timeseries st0)) /\
        n_levels cfg = 2%Z /\
        cfg_model_type cfg = "continuous" /\
        initial_pi cfg = {[ "1" := 1e2%Q; "2" := 1e1%Q ]} /\
        omega cfg = {[ "1" := value (slider1 st); "2" := value (slider2 st) ]}
  end.
Proof.
  destruct (main demo_load_data demo_HGF) as [st0|e] eqn:Hmain;
    [| vm_compute in Hmain; discriminate Hmain].
  destruct (fits_differ_in_omega_and_mu_only demo_load_data demo_HGF st0
              [SliderChange slider2_w (-3)%Q] Hmain)
    as (H1 & _ & fits & Hlog & Hlen & _ & cfg & Hlast & Hcfg).
  intros st. split; [exact H1 |].
  exists fits, cfg. split_and!; auto; apply Hcfg.
Defined.

(** * Tables of any number of nodes *)

(** ** The names of the columns *)
















